(** * The Scalyr query tool: [src/tools/dataset_scalyr_query.py]

    A shallow embedding of the one function of the repository,
    [dataset_scalyr_query], and the properties its specification states.

    The function reads one credential from the process environment, builds
    a request body, performs one POST and turns every outcome into a Python
    value.  Its effects are modelled explicitly:

    - the process environment [os.environ] is a finite map of strings;
    - [urllib.request.urlopen] is an oracle: for the environment and the
      [Request] object it is given, it tells what the call returns or
      raises.  What urllib does on the wire to get there (redirects it
      follows, headers it adds, proxies it takes from the environment) is
      part of that answer.  Every [Request] handed to [urlopen] is appended
      to a log, so that "[urlopen] is not called" can be stated;
    - exceptions are threaded through a small monad with [try ... except].

    The [json] module and the UTF-8 codec are library code, not code of the
    repository: the function is written against an interface ([JsonModule],
    [Utf8Codec]) and each general theorem holds for every implementation of
    it.  A reference implementation ([RefCodec]) is used to evaluate the
    function on concrete inputs.

    Python [str] values are represented by Rocq strings holding the UTF-8
    bytes of the text; [bytes] values are lists of bytes; Python [int] is
    [Z].  Exceptions are raised by the calls that can raise them; an
    interrupt delivered in the middle of a computation that does no
    input or output is not modelled. *)

From Stdlib Require Import ZArith String Ascii List DecimalString DecimalPos DecimalZ.
From Stdlib.Strings Require Import Byte.
From stdpp Require Import base option list strings gmap.

Set Warnings "-register-all".

Local Open Scope Z_scope.
Local Open Scope string_scope.

(** ** Python values *)

(** The values that cross the function's boundary: what [json.loads]
    produces and what the function returns.  A [dict] keeps its insertion
    order, as in Python, so it is an association list with unique keys.
    A float is identified by the literal it was read from. *)
Inductive value : Type :=
  | VNone
  | VBool (b : bool)
  | VInt (n : Z)
  | VFloat (literal : string)
  | VStr (s : string)
  | VList (items : list value)
  | VDict (entries : list (string * value)).

Abbreviation dict := (list (string * value)).
Abbreviation bytes := (list byte).

(** [d.get(k)] / [k in d]. *)
Fixpoint dict_get (d : dict) (k : string) : option value :=
  match d with
  | [] => None
  | (k', v) :: d' => if String.eqb k k' then Some v else dict_get d' k
  end.

(** [d[k] = v]: replaces the value of an existing key in place, appends a
    new key at the end. *)
Fixpoint dict_set (d : dict) (k : string) (v : value) : dict :=
  match d with
  | [] => [(k, v)]
  | (k', v') :: d' =>
      if String.eqb k k' then (k, v) :: d' else (k', v') :: dict_set d' k v
  end.

(** [isinstance(v, dict)]. *)
Definition is_dict (v : value) : bool :=
  match v with VDict _ => true | _ => false end.

(** Truthiness of an [Optional[str]]: [None] and the empty string are
    falsy.  Returns the string when the value is truthy. *)
Definition truthy (o : option string) : option string :=
  match o with
  | Some (String _ _ as s) => Some s
  | _ => None
  end.

(** [str(n)] for an [int], as used by f-strings and [%s]. *)
Definition str_of_int (n : Z) : string :=
  NilZero.string_of_int (Z.to_int n).

(** [needle in hay] for strings. *)
Definition mentions (needle hay : string) : Prop :=
  ∃ pre post, hay = pre +:+ needle +:+ post.

(** ** Exceptions *)

(** The exception classes the [except] clauses of the function tell apart.
    - [HTTPError code msg fp]: [e.code], [e.reason] (a property returning
      [e.msg]) and [e.fp]; [fp = None] is a falsy [e.fp], [Some r] a body
      stream for which [e.read()] yields the bytes or raises ([r]);
    - [URLError reason]: a [URLError] that is not an [HTTPError]; [reason]
      is the text that [f"{e.reason}"] renders;
    - [OSError msg]: an [OSError] that is not a [URLError], such as the
      [ConnectionResetError] or [TimeoutError] that urllib lets through
      while it waits for or reads the response; [msg] is [str(e)];
    - [Exception msg]: any other subclass of [Exception], with [str(e)];
    - [BaseException msg]: an exception outside [Exception]
      ([KeyboardInterrupt], [SystemExit]), with [str(e)]. *)
Inductive exn : Type :=
  | HTTPError (code : Z) (msg : string) (fp : option (exn + bytes))
  | URLError (reason : string)
  | OSError (msg : string)
  | Exception (msg : string)
  | BaseException (msg : string).

(** [str(e)]. *)
Definition exn_str (e : exn) : string :=
  match e with
  | HTTPError code msg _ => "HTTP Error " +:+ str_of_int code +:+ ": " +:+ msg
  | URLError reason => "<urlopen error " +:+ reason +:+ ">"
  | OSError msg | Exception msg | BaseException msg => msg
  end.

(** [isinstance(e, Exception)]. *)
Definition is_Exception (e : exn) : bool :=
  match e with BaseException _ => false | _ => true end.

Inductive result (A : Type) : Type :=
  | Return (a : A)
  | Raise (e : exn).
Arguments Return {A} a.
Arguments Raise {A} e.

(** ** Requests, responses and the outside world *)

(** The arguments of [urllib.request.Request(url, data=, headers=, method=)]. *)
Record Request : Type := mkRequest {
  full_url : string;
  data : bytes;
  headers : list (string * string);
  method : string
}.

(** The object [urlopen] returns for a 2xx answer; [response.read()] yields
    the body or raises. *)
Record Response : Type := mkResponse {
  response_read : exn + bytes
}.

(** The world of a call: the environment, and what [urlopen] does with a
    [Request] in a given environment. *)
Record World : Type := mkWorld {
  environ : gmap string string;
  network : gmap string string → Request → result Response
}.

(** What [urlopen] answers to a request in the world as it is. *)
Definition answer (w : World) (req : Request) : result Response :=
  network w (environ w) req.

(** ** The interface to the standard library *)

(** [json.dumps] and [json.loads] return or raise an exception with a
    message ([inl]). *)
Class JsonModule : Type := {
  json_dumps : value → string + string;
  json_loads : string → string + value
}.

(** [s.encode("utf-8")] and [b.decode("utf-8")]; decoding raises
    [UnicodeDecodeError] with a message ([inl]) on ill-formed input. *)
Class Utf8Codec : Type := {
  str_encode : string → bytes;
  bytes_decode : bytes → string + string
}.

(** ** The effect monad *)

(** A computation reads the world, appends the requests it hands to
    [urlopen] to the log and returns a value or raises. *)
Definition M (A : Type) : Type := World → list Request → list Request * result A.

Definition ret {A} (a : A) : M A := λ _ log, (log, Return a).

Definition raise {A} (e : exn) : M A := λ _ log, (log, Raise e).

Definition bind {A B} (m : M A) (k : A → M B) : M B :=
  λ w log,
    match m w log with
    | (log', Return a) => k a w log'
    | (log', Raise e) => (log', Raise e)
    end.

(** [try: m except ... as e: h e].  An exception raised by the handler
    itself is not caught again: it leaves the [try] statement. *)
Definition try_except {A} (m : M A) (h : exn → M A) : M A :=
  λ w log,
    match m w log with
    | (log', Return a) => (log', Return a)
    | (log', Raise e) => h e w log'
    end.

(** A call of the [json] module or of the codec: it returns, or raises an
    exception of class [Exception] (a [ValueError]) with the message. *)
Definition lift {A} (r : string + A) : M A :=
  match r with
  | inr a => ret a
  | inl msg => raise (Exception msg)
  end.

(** A read: it returns, or raises the exception. *)
Definition lift_exn {A} (r : exn + A) : M A :=
  match r with
  | inr a => ret a
  | inl e => raise e
  end.

(** [os.environ.get(key)]. *)
Definition os_environ_get (key : string) : M (option string) :=
  λ w log, (log, Return (environ w !! key)).

(** [urllib.request.urlopen(req)]: the request is handed over, the world
    answers. *)
Definition urlopen (req : Request) : M Response :=
  λ w log, ((log ++ [req])%list, answer w req).

Declare Scope py_scope.
Delimit Scope py_scope with py.
Notation "'let!' x ':=' m 'in' k" := (bind m (λ x, k))
  (at level 10, x name, m at level 200, k at level 200, only parsing) : py_scope.

(** Runs a call in a world with an empty request log. *)
Definition run {A} (w : World) (m : M A) : list Request * result A := m w [].

(** ** The tool *)

Section Tool.
Context `{JsonModule} `{Utf8Codec}.
Local Open Scope py_scope.

(** Lines 56-68: the request body. *)
Definition request_body (token filter start_time end_time : string)
    (max_count : Z) (columns : string) (continuation_token : option string)
    : dict :=
  let body :=
    [ ("token", VStr token);
      ("queryType", VStr "log");
      ("filter", VStr filter);
      ("startTime", VStr start_time);
      ("endTime", VStr end_time);
      ("maxCount", VInt max_count);
      ("columns", VStr columns) ] in
  match truthy continuation_token with
  | Some continuation_token =>
      dict_set body "continuationToken" (VStr continuation_token)
  | None => body
  end.

(** Lines 84-93: the [except urllib.error.HTTPError] clause. *)
Definition on_http_error (e : exn) (code : Z) (reason : string)
    (fp : option (exn + bytes)) : M value :=
  let! error_body :=
    match fp with
    | Some r => (let! raw := lift_exn r in lift (bytes_decode raw))
    | None => ret (exn_str e)
    end in
  let error_details :=
    match json_loads error_body with
    | inr v => v
    | inl _ => VStr error_body
    end in
  ret (VDict
    [ ("error", VStr ("HTTP " +:+ str_of_int code +:+ ": " +:+ reason));
      ("details", error_details) ]).

(** Lines 84-101: the three [except] clauses, tried in order.  An
    [HTTPError] is a [URLError], so its clause comes first; an [OSError]
    that is not a [URLError] falls to [except Exception]; an exception
    outside [Exception] matches no clause and goes on. *)
Definition except_clauses (e : exn) : M value :=
  match e with
  | HTTPError code reason fp => on_http_error e code reason fp
  | URLError reason =>
      ret (VDict [("error", VStr ("URL Error: " +:+ reason))])
  | OSError msg | Exception msg =>
      ret (VDict [("error", VStr ("Unexpected error: " +:+ msg))])
  | BaseException _ => raise e
  end.

(** Lines 22-101. *)
Definition dataset_scalyr_query (filter start_time end_time : string)
    (max_count : Z) (columns : string) (continuation_token : option string)
    : M value :=
  let! token := os_environ_get "SCALYR_API_TOKEN" in
  match truthy token with
  | None =>
      ret (VDict
        [("error", VStr "SCALYR_API_TOKEN environment variable not set")])
  | Some token =>
      let body :=
        request_body token filter start_time end_time max_count columns
          continuation_token in
      let url := "https://app.scalyr.com/api/query" in
      let headers := [("Content-Type", "application/json")] in
      try_except
        (let! text := lift (json_dumps (VDict body)) in
         let data := str_encode text in
         let req := mkRequest url data headers "POST" in
         let! response := urlopen req in
         let! raw := lift_exn (response_read response) in
         let! response_data := lift (bytes_decode raw) in
         lift (json_loads response_data))
        except_clauses
  end.

(** The keyword arguments of a call; [None] is an argument the caller
    left out, which takes the default of the signature (lines 24-28). *)
Record kwargs : Type := mkKwargs {
  kw_start_time : option string;
  kw_end_time : option string;
  kw_max_count : option Z;
  kw_columns : option string;
  kw_continuation_token : option (option string)
}.

Definition no_kwargs : kwargs := mkKwargs None None None None None.

Definition call (filter : string) (kw : kwargs) : M value :=
  dataset_scalyr_query filter
    (default "4h" (kw_start_time kw))
    (default "0h" (kw_end_time kw))
    (default 100 (kw_max_count kw))
    (default "" (kw_columns kw))
    (default None (kw_continuation_token kw)).

End Tool.

(** ** A reference implementation of the library interface

    [RefCodec] implements [json.dumps] (default separators,
    [ensure_ascii=True], the default limit of 4300 digits on the conversion
    of an [int] to text), [json.loads] (default strict mode) and the strict
    UTF-8 codec, so that the tool can be evaluated on concrete inputs.  The
    messages of the exceptions of the decoder and of the parser are
    abbreviated to a fixed text; no statement below depends on their
    wording. *)
Module RefCodec.

Local Open Scope N_scope.

(** *** UTF-8 *)

Definition is_cont (b : N) : bool := (0x80 <=? b) && (b <=? 0xBF).

Definition cont_bits (b : N) : N := N.land b 0x3F.

(** The code points of a well-formed UTF-8 byte sequence: shortest form
    only, no surrogates, nothing above U+10FFFF. *)
Fixpoint utf8_code_points (bs : list N) : option (list N) :=
  match bs with
  | [] => Some []
  | b0 :: bs1 =>
      if b0 <? 0x80 then cons b0 <$> utf8_code_points bs1
      else match bs1 with
      | [] => None
      | b1 :: bs2 =>
          if (0xC2 <=? b0) && (b0 <=? 0xDF) then
            if is_cont b1
            then cons (N.land b0 0x1F * 64 + cont_bits b1) <$> utf8_code_points bs2
            else None
          else match bs2 with
          | [] => None
          | b2 :: bs3 =>
              if (0xE0 <=? b0) && (b0 <=? 0xEF) then
                let cp := N.land b0 0x0F * 4096 + cont_bits b1 * 64 + cont_bits b2 in
                if is_cont b1 && is_cont b2 && (0x800 <=? cp)
                   && negb ((0xD800 <=? cp) && (cp <=? 0xDFFF))
                then cons cp <$> utf8_code_points bs3
                else None
              else match bs3 with
              | [] => None
              | b3 :: bs4 =>
                  if (0xF0 <=? b0) && (b0 <=? 0xF4) then
                    let cp := N.land b0 0x07 * 262144 + cont_bits b1 * 4096
                              + cont_bits b2 * 64 + cont_bits b3 in
                    if is_cont b1 && is_cont b2 && is_cont b3
                       && (0x10000 <=? cp) && (cp <=? 0x10FFFF)
                    then cons cp <$> utf8_code_points bs4
                    else None
                  else None
              end
          end
      end
  end.

(** The UTF-8 bytes of a code point; a lone surrogate, which [json.loads]
    lets through, takes the three-byte form. *)
Definition utf8_of_code_point (cp : N) : list N :=
  if cp <? 0x80 then [cp]
  else if cp <? 0x800 then [0xC0 + cp / 64; 0x80 + cp mod 64]
  else if cp <? 0x10000 then
    [0xE0 + cp / 4096; 0x80 + (cp / 64) mod 64; 0x80 + cp mod 64]
  else
    [0xF0 + cp / 262144; 0x80 + (cp / 4096) mod 64;
     0x80 + (cp / 64) mod 64; 0x80 + cp mod 64].

Definition ref_encode (s : string) : bytes := list_byte_of_string s.

Definition ref_decode (raw : bytes) : string + string :=
  match utf8_code_points (Byte.to_N <$> raw) with
  | Some _ => inr (string_of_list_byte raw)
  | None => inl "'utf-8' codec can't decode bytes"%string
  end.

(** *** [json.dumps] *)

Definition hex_digit (n : N) : ascii :=
  ascii_of_N (if n <? 10 then 48 + n else 87 + n).

(** [\uXXXX], four lower-case hexadecimal digits. *)
Definition u_escape (n : N) : list ascii :=
  ["\"%char; "u"%char; hex_digit (n / 4096 mod 16); hex_digit (n / 256 mod 16);
   hex_digit (n / 16 mod 16); hex_digit (n mod 16)].

(** One code point inside a string literal, as [ensure_ascii] writes it. *)
Definition escape_code_point (cp : N) : list ascii :=
  if cp =? 34 then ["\"; "034"]%char
  else if cp =? 92 then ["\"; "\"]%char
  else if cp =? 10 then ["\"; "n"]%char
  else if cp =? 13 then ["\"; "r"]%char
  else if cp =? 9 then ["\"; "t"]%char
  else if cp =? 8 then ["\"; "b"]%char
  else if cp =? 12 then ["\"; "f"]%char
  else if (32 <=? cp) && (cp <=? 126) then [ascii_of_N cp]
  else if cp <? 0x10000 then u_escape cp
  else
    let n := cp - 0x10000 in
    (u_escape (0xD800 + n / 1024) ++ u_escape (0xDC00 + n mod 1024))%list.

(** A string literal.  A Rocq string that is not the UTF-8 form of a text
    stands for no Python [str]; its bytes are then escaped one by one. *)
Definition dumps_str (s : string) : string :=
  let bs := N_of_ascii <$> list_ascii_of_string s in
  let cps := default bs (utf8_code_points bs) in
  string_of_list_ascii
    ("034" :: concat (escape_code_point <$> cps) ++ ["034"])%char%list.

(** [", ".join(parts)]. *)
Fixpoint join (parts : list string) : string :=
  match parts with
  | [] => ""
  | [p] => p
  | p :: ps => p +:+ ", " +:+ join ps
  end%string.

(** [sys.int_info.default_max_str_digits]: converting an [int] of more
    digits to text raises [ValueError]. *)
Definition int_max_str_digits : Z := 4300.

(** The number has at most [int_max_str_digits] digits.  A number under
    [2 ^ 14000] is well under [10 ^ 4300] and is not compared with it. *)
Definition fits_max_str_digits (n : Z) : bool :=
  if (Z.log2 (Z.abs n) <? 14000)%Z then true
  else (Z.abs n <? 10 ^ int_max_str_digits)%Z.

Definition dumps_int (n : Z) : string + string :=
  if fits_max_str_digits n then inr (str_of_int n)
  else inl ("Exceeds the limit (4300 digits) for integer string conversion; "
            +:+ "use sys.set_int_max_str_digits() to increase the limit")%string.

Fixpoint ref_dumps (v : value) : string + string :=
  match v with
  | VNone => inr "null"
  | VBool true => inr "true"
  | VBool false => inr "false"
  | VInt n => dumps_int n
  | VFloat literal => inr literal
  | VStr s => inr (dumps_str s)
  | VList items =>
      let fix dumps_items (l : list value) : string + list string :=
        match l with
        | [] => inr []
        | x :: l' =>
            match ref_dumps x with
            | inl msg => inl msg
            | inr part =>
                match dumps_items l' with
                | inl msg => inl msg
                | inr parts => inr (part :: parts)
                end
            end
        end in
      match dumps_items items with
      | inl msg => inl msg
      | inr parts => inr ("[" +:+ join parts +:+ "]")
      end
  | VDict entries =>
      let fix dumps_entries (l : dict) : string + list string :=
        match l with
        | [] => inr []
        | (k, x) :: l' =>
            match ref_dumps x with
            | inl msg => inl msg
            | inr part =>
                match dumps_entries l' with
                | inl msg => inl msg
                | inr parts => inr ((dumps_str k +:+ ": " +:+ part) :: parts)
                end
            end
        end in
      match dumps_entries entries with
      | inl msg => inl msg
      | inr parts => inr ("{" +:+ join parts +:+ "}")
      end
  end%string.

(** *** [json.loads] *)

Definition is_ws (c : ascii) : bool :=
  match c with
  | " " | "009" | "010" | "013" => true
  | _ => false
  end%char.

Fixpoint skip_ws (s : list ascii) : list ascii :=
  match s with
  | c :: s' => if is_ws c then skip_ws s' else s
  | [] => []
  end.

Definition is_digit (c : ascii) : bool :=
  (48 <=? N_of_ascii c) && (N_of_ascii c <=? 57).

Fixpoint take_digits (s : list ascii) : list ascii * list ascii :=
  match s with
  | c :: s' =>
      if is_digit c
      then let '(ds, r) := take_digits s' in (c :: ds, r)
      else ([], s)
  | [] => ([], [])
  end.

Definition digits_value (ds : list ascii) : N :=
  fold_left (λ acc d, 10 * acc + (N_of_ascii d - 48)) ds 0.

Definition hex_value (c : ascii) : option N :=
  let n := N_of_ascii c in
  if (48 <=? n) && (n <=? 57) then Some (n - 48)
  else if (97 <=? n) && (n <=? 102) then Some (n - 87)
  else if (65 <=? n) && (n <=? 70) then Some (n - 55)
  else None.

Definition hex4 (h1 h2 h3 h4 : ascii) : option N :=
  a ← hex_value h1; b ← hex_value h2; c ← hex_value h3; d ← hex_value h4;
  Some (a * 4096 + b * 256 + c * 16 + d).

Definition chars_of_code_point (cp : N) : list ascii :=
  ascii_of_N <$> utf8_of_code_point cp.

(** The rest of a string literal, after its opening quote.  A high
    surrogate escape directly followed by a low surrogate escape is one
    code point. *)
Fixpoint parse_string (s : list ascii) : option (list ascii * list ascii) :=
  match s with
  | [] => None
  | "034" :: r => Some ([], r)
  | "\" :: "u" :: h1 :: h2 :: h3 :: h4 :: r =>
      uni ← hex4 h1 h2 h3 h4;
      if ((0xD800 <=? uni) && (uni <=? 0xDBFF))%N then
        match r with
        | "\" :: "u" :: g1 :: g2 :: g3 :: g4 :: r2 =>
            uni2 ← hex4 g1 g2 g3 g4;
            if ((0xDC00 <=? uni2) && (uni2 <=? 0xDFFF))%N then
              let cp := (0x10000 + (uni - 0xD800) * 1024 + (uni2 - 0xDC00))%N in
              '(cs, r') ← parse_string r2;
              Some (chars_of_code_point cp ++ cs, r')
            else
              '(cs, r') ← parse_string r;
              Some (chars_of_code_point uni ++ cs, r')
        | _ =>
            '(cs, r') ← parse_string r;
            Some (chars_of_code_point uni ++ cs, r')
        end
      else
        '(cs, r') ← parse_string r;
        Some (chars_of_code_point uni ++ cs, r')
  | "\" :: e :: r =>
      c ← match e with
          | "034" | "\" | "/" => Some e
          | "b" => Some "008"
          | "f" => Some "012"
          | "n" => Some "010"
          | "r" => Some "013"
          | "t" => Some "009"
          | _ => None
          end;
      '(cs, r') ← parse_string r;
      Some (c :: cs, r')
  | c :: r =>
      if (N_of_ascii c <? 32)%N then None
      else '(cs, r') ← parse_string r; Some (c :: cs, r')
  end%char%list.

Definition starts_with (p : string) (s : list ascii) : option (list ascii) :=
  let n := String.length p in
  if decide (take n s = list_ascii_of_string p) then Some (drop n s) else None.

(** [NUMBER_RE]: an integer part, then an optional fraction and an optional
    exponent; without either the literal is an [int]. *)
Definition parse_number (s : list ascii) : option (value * list ascii) :=
  let '(sign, s1) :=
    match s with
    | "-" :: s' => (["-"], s')
    | _ => ([], s)
    end%char in
  '(ip, r1) ← match s1 with
              | "0" :: s2 => Some (["0"], s2)
              | d :: _ => if is_digit d then Some (take_digits s1) else None
              | [] => None
              end%char;
  let '(frac, r2) :=
    match r1 with
    | "." :: r =>
        match take_digits r with
        | ([], _) => ([], r1)
        | (fd, r') => ("." :: fd, r')
        end
    | _ => ([], r1)
    end%char in
  let '(exp, r3) :=
    match r2 with
    | e :: r =>
        if decide (e = "e" ∨ e = "E") then
          let '(sg, r') :=
            match r with
            | "+" :: r' => (["+"], r')
            | "-" :: r' => (["-"], r')
            | _ => ([], r)
            end in
          match take_digits r' with
          | ([], _) => ([], r2)
          | (ed, r'') => (e :: sg ++ ed, r'')
          end
        else ([], r2)
    | [] => ([], r2)
    end%char%list in
  match frac, exp with
  | [], [] =>
      let n := Z.of_N (digits_value ip) in
      Some (VInt (if sign is [] then n else (- n)%Z), r3)
  | _, _ => Some (VFloat (string_of_list_ascii (sign ++ ip ++ frac ++ exp)), r3)
  end%list.

(** The other literals, in the order the scanner tries them. *)
Definition parse_literal (s : list ascii) : option (value * list ascii) :=
  match starts_with "null" s with Some r => Some (VNone, r) | None =>
  match starts_with "true" s with Some r => Some (VBool true, r) | None =>
  match starts_with "false" s with Some r => Some (VBool false, r) | None =>
  match parse_number s with Some vr => Some vr | None =>
  match starts_with "NaN" s with Some r => Some (VFloat "NaN", r) | None =>
  match starts_with "Infinity" s with Some r => Some (VFloat "Infinity", r) | None =>
  match starts_with "-Infinity" s with Some r => Some (VFloat "-Infinity", r) | None =>
  None end end end end end end end%string.

(** [scan_once], [JSONArray] and [JSONObject].  Every call uses one unit of
    fuel; the members of an array or object are accumulated in order, a
    repeated key keeping its first position and its last value. *)
Fixpoint parse_value (fuel : nat) (s : list ascii) {struct fuel}
    : option (value * list ascii) :=
  match fuel with
  | O => None
  | S fuel =>
      match s with
      | "034" :: r => '(cs, r') ← parse_string r; Some (VStr (string_of_list_ascii cs), r')
      | "{" :: r =>
          match skip_ws r with
          | "}" :: r' => Some (VDict [], r')
          | r' => parse_members fuel r' []
          end
      | "[" :: r =>
          match skip_ws r with
          | "]" :: r' => Some (VList [], r')
          | r' => parse_items fuel r' []
          end
      | _ => parse_literal s
      end%char
  end
with parse_items (fuel : nat) (s : list ascii) (acc : list value) {struct fuel}
    : option (value * list ascii) :=
  match fuel with
  | O => None
  | S fuel =>
      '(v, r) ← parse_value fuel s;
      match skip_ws r with
      | "]" :: r' => Some (VList (acc ++ [v]), r')
      | "," :: r' => parse_items fuel (skip_ws r') (acc ++ [v])
      | _ => None
      end%char%list
  end
with parse_members (fuel : nat) (s : list ascii) (acc : dict) {struct fuel}
    : option (value * list ascii) :=
  match fuel with
  | O => None
  | S fuel =>
      match s with
      | "034" :: r =>
          '(cs, r1) ← parse_string r;
          match skip_ws r1 with
          | ":" :: r2 =>
              '(v, r3) ← parse_value fuel (skip_ws r2);
              let acc' := dict_set acc (string_of_list_ascii cs) v in
              match skip_ws r3 with
              | "}" :: r4 => Some (VDict acc', r4)
              | "," :: r4 => parse_members fuel (skip_ws r4) acc'
              | _ => None
              end
          | _ => None
          end
      | _ => None
      end%char
  end.

Definition ref_loads (text : string) : string + value :=
  let s := list_ascii_of_string text in
  match parse_value (2 * length s + 2) (skip_ws s) with
  | Some (v, r) =>
      match skip_ws r with
      | [] => inr v
      | _ => inl "Extra data"%string
      end
  | None => inl "Expecting value"%string
  end.

End RefCodec.

#[export] Instance ref_json : JsonModule :=
  {| json_dumps := RefCodec.ref_dumps; json_loads := RefCodec.ref_loads |}.

#[export] Instance ref_utf8 : Utf8Codec :=
  {| str_encode := RefCodec.ref_encode; bytes_decode := RefCodec.ref_decode |}.

(** ** Vocabulary of the specification *)

(** The configuration key of the credential. *)
Definition SCALYR_API_TOKEN : string := "SCALYR_API_TOKEN".

(** The credential is configured: the key is set to a non-empty token. *)
Definition configured (w : World) (token : string) : Prop :=
  environ w !! SCALYR_API_TOKEN = Some token ∧ token ≠ "".

(** The same world with the configuration key removed. *)
Definition unset_credential (w : World) : World :=
  mkWorld (delete SCALYR_API_TOKEN (environ w)) (network w).

(** The request the specification asks for, for a serialised body: a POST
    to the fixed endpoint, with the JSON content type, whose data are the
    UTF-8 bytes of the body. *)
Definition post_request `{Utf8Codec} (payload : string) : Request :=
  mkRequest "https://app.scalyr.com/api/query" (str_encode payload)
    [("Content-Type", "application/json")] "POST".

(** [json.loads(request.data.decode("utf-8"))], the way the tests look at
    the body of a request. *)
Definition request_json `{JsonModule} `{Utf8Codec} (req : Request)
    : string + value :=
  match bytes_decode (data req) with
  | inr text => json_loads text
  | inl msg => inl msg
  end.

(** [result[k]] on a returned mapping. *)
Definition value_get (v : value) (k : string) : option value :=
  match v with
  | VDict d => dict_get d k
  | _ => None
  end.

(** The [try] block raises [e] at one of its two calls that do input and
    output: [urlopen] raises it, or [urlopen] returns and [response.read()]
    raises it. *)
Definition raised_by_io (w : World) (req : Request) (e : exn) : Prop :=
  answer w req = Raise e
  ∨ ∃ response, answer w req = Return response ∧ response_read response = inl e.

(** The failures of the transport, as they reach the function: the ones
    urllib wraps in a [URLError] (while connecting and sending), and the
    [OSError]s it lets through (while waiting for and reading the
    response).  An [HTTPError] is an answer of the server, not a failure
    of the transport. *)
Definition transport_failure (e : exn) : bool :=
  match e with
  | URLError _ | OSError _ => true
  | _ => false
  end.

(** The keys every request body has, in the order of lines 56-64. *)
Definition body_keys : list string :=
  ["token"; "queryType"; "filter"; "startTime"; "endTime"; "maxCount";
   "columns"].

(** [c in s] for a character. *)
Fixpoint has_char (c : ascii) (s : string) : bool :=
  match s with
  | EmptyString => false
  | String c' s' => Ascii.eqb c c' || has_char c s'
  end.

(** ** Concrete worlds, after the repository's tests *)

(** [@patch.dict("os.environ", {"SCALYR_API_TOKEN": "test-token-123"})]. *)
Definition test_environ : gmap string string :=
  {[ SCALYR_API_TOKEN := "test-token-123" ]}.

(** [mock_urlopen.return_value]: a 2xx answer with the given body. *)
Definition answers (body : bytes)
    : gmap string string → Request → result Response :=
  λ _ _, Return (mkResponse (inr body)).

(** [mock_urlopen.side_effect]: every request raises. *)
Definition fails (e : exn) : gmap string string → Request → result Response :=
  λ _ _, Raise e.

(** [json.dumps(mock_response_data).encode("utf-8")]. *)
Definition mock_body (v : value) : bytes :=
  match RefCodec.ref_dumps v with
  | inr text => RefCodec.ref_encode text
  | inl _ => []
  end.

(** [test_query_with_default_parameters]. *)
Definition world_success : World :=
  mkWorld test_environ (answers (mock_body (VDict [("status", VStr "success")]))).

(** A 2xx answer whose body is the JSON array [[1, 2]]. *)
Definition world_array : World :=
  mkWorld test_environ (answers (list_byte_of_string "[1, 2]")).

(** [@patch.dict("os.environ", {}, clear=True)] of [test_missing_api_token]. *)
Definition world_no_credential : World :=
  mkWorld ∅ (answers (mock_body (VDict [("status", VStr "success")]))).

(** The key is set, to the empty string. *)
Definition world_empty_credential : World :=
  mkWorld {[ SCALYR_API_TOKEN := "" ]}
    (answers (mock_body (VDict [("status", VStr "success")]))).

(** The second [test_returns_dict_not_string]: HTTP 500 with a body that
    is not JSON. *)
Definition world_http_500 : World :=
  mkWorld test_environ
    (fails (HTTPError 500 "Internal Server Error"
              (Some (inr (list_byte_of_string "Non-JSON error response"))))).

(** [test_http_error_handling]: HTTP 400 with a JSON body. *)
Definition world_http_400 : World :=
  mkWorld test_environ
    (fails (HTTPError 400 "Bad Request"
              (Some (inr (mock_body
                 (VDict [("message", VStr "Invalid query");
                         ("code", VStr "BAD_REQUEST")])))))).

(** HTTP 500 whose body is the single byte [0xff], which is not UTF-8. *)
Definition world_http_500_binary : World :=
  mkWorld test_environ
    (fails (HTTPError 500 "Internal Server Error" (Some (inr [xff])))).

(** HTTP 502 whose body is the ISO-8859-1 text [café], the bytes
    [63 61 66 e9]; a lone [e9] is not UTF-8. *)
Definition world_http_502_latin1 : World :=
  mkWorld test_environ
    (fails (HTTPError 502 "Bad Gateway" (Some (inr [x63; x61; x66; xe9])))).

(** HTTP 503 raised without a body stream: [e.fp] is falsy. *)
Definition world_http_503_no_body : World :=
  mkWorld test_environ (fails (HTTPError 503 "Service Unavailable" None)).

(** HTTP 503 with the same code and reason, and a body. *)
Definition world_http_503_busy : World :=
  mkWorld test_environ
    (fails (HTTPError 503 "Service Unavailable"
              (Some (inr (list_byte_of_string "busy"))))).

(** [test_url_error_handling]. *)
Definition world_unreachable : World :=
  mkWorld test_environ (fails (URLError "Network unreachable")).

(** The server resets the connection while urllib waits for its answer:
    [getresponse] raises [ConnectionResetError(104, 'Connection reset by
    peer')], which urllib does not wrap. *)
Definition world_reset : World :=
  mkWorld test_environ (fails (OSError "[Errno 104] Connection reset by peer")).

(** The user interrupts the call while [urlopen] waits: [KeyboardInterrupt],
    whose [str] is empty. *)
Definition world_interrupted : World :=
  mkWorld test_environ (fails (BaseException "")).

(** [test_unexpected_error_handling]. *)
Definition world_unexpected : World :=
  mkWorld test_environ (fails (Exception "Unexpected error occurred")).

(** A 2xx answer whose body is not JSON. *)
Definition world_malformed : World :=
  mkWorld test_environ (answers (list_byte_of_string "<html>")).

(** The environment of [world_success] with other variables set beside the
    credential. *)
Definition world_busy_environ : World :=
  mkWorld (<["PATH" := "/usr/bin"]> (<["HOME" := "/root"]> test_environ))
    (network world_success).

(** [test_query_with_custom_parameters]. *)
Definition custom_kwargs : kwargs :=
  mkKwargs (Some "1h") (Some "0h") (Some 200)
    (Some "timestamp,message,severity") (Some (Some "token-123")).

(** [json.dumps(body)] with the reference codec, for a body it
    serialises. *)
Definition payload_of (body : dict) : string :=
  match RefCodec.ref_dumps (VDict body) with
  | inr text => text
  | inl _ => ""
  end.

(** The body of the call of [test_query_with_default_parameters]. *)
Definition default_body : dict :=
  [ ("token", VStr "test-token-123"); ("queryType", VStr "log");
    ("filter", VStr "test"); ("startTime", VStr "4h");
    ("endTime", VStr "0h"); ("maxCount", VInt 100);
    ("columns", VStr "") ].

(** ** Properties *)

Section Properties.
Context `{JsonModule} `{Utf8Codec}.
Implicit Types (w : World) (token filter start_time end_time columns : string).
Implicit Types (max_count : Z) (continuation_token : option string).
Implicit Types (payload : string) (e : exn).

(** *** Stepping through a call *)

Lemma truthy_nonempty s : s ≠ "" → truthy (Some s) = Some s.
Proof. destruct s; [congruence | reflexivity]. Qed.

Lemma truthy_configured w token :
  truthy (environ w !! SCALYR_API_TOKEN) = Some token ↔ configured w token.
Proof.
  unfold configured. split.
  - destruct (environ w !! SCALYR_API_TOKEN) as [[|c s]|]; cbn; try done.
    by intros [= <-].
  - intros [-> Hne]. by apply truthy_nonempty.
Qed.

(** Reading a key after writing it, and after writing another one. *)
Lemma dict_get_set_eq (d : dict) k v : dict_get (dict_set d k v) k = Some v.
Proof.
  induction d as [|[k' v'] d IH]; cbn.
  - by rewrite String.eqb_refl.
  - destruct (String.eqb k k') eqn:Hk; cbn.
    + by rewrite String.eqb_refl.
    + by rewrite Hk.
Qed.

Lemma dict_get_set_ne (d : dict) k k' v :
  k ≠ k' → dict_get (dict_set d k v) k' = dict_get d k'.
Proof.
  intros Hne. induction d as [|[k0 v0] d IH]; cbn.
  - destruct (String.eqb k' k) eqn:Hk; [|done].
    apply String.eqb_eq in Hk. congruence.
  - destruct (String.eqb k k0) eqn:Hk; cbn.
    + apply String.eqb_eq in Hk as ->.
      destruct (String.eqb k' k0) eqn:Hk'; [|done].
      apply String.eqb_eq in Hk'. congruence.
    + by rewrite IH.
Qed.

(** Without a truthy credential the call returns at line 51. *)
Lemma run_not_configured w filter start_time end_time max_count columns
    continuation_token :
  truthy (environ w !! SCALYR_API_TOKEN) = None →
  run w (dataset_scalyr_query filter start_time end_time max_count columns
           continuation_token)
  = ([], Return (VDict
      [("error", VStr "SCALYR_API_TOKEN environment variable not set")])).
Proof.
  intros Hfalsy. unfold run, dataset_scalyr_query, bind, os_environ_get.
  fold SCALYR_API_TOKEN. by rewrite Hfalsy.
Qed.

(** With a credential, when [json.dumps] raises at line 77 nothing is
    handed to [urlopen] and the last clause reports the failure. *)
Lemma run_dumps_failure w token filter start_time end_time max_count columns
    continuation_token msg :
  configured w token →
  json_dumps (VDict (request_body token filter start_time end_time max_count
                       columns continuation_token)) = inl msg →
  run w (dataset_scalyr_query filter start_time end_time max_count columns
           continuation_token)
  = ([], Return (VDict [("error", VStr ("Unexpected error: " +:+ msg))])).
Proof.
  intros [Henv Hne] Hdumps.
  unfold run, dataset_scalyr_query, bind at 1, os_environ_get.
  fold SCALYR_API_TOKEN. rewrite Henv, (truthy_nonempty _ Hne).
  unfold try_except, bind, lift. by rewrite Hdumps.
Qed.

(** With a credential and a serialised body the request is handed to
    [urlopen], and the rest of the call is decided by the answer. *)
Lemma run_configured w token filter start_time end_time max_count columns
    continuation_token payload :
  configured w token →
  json_dumps (VDict (request_body token filter start_time end_time max_count
                       columns continuation_token)) = inr payload →
  let req := post_request payload in
  run w (dataset_scalyr_query filter start_time end_time max_count columns
           continuation_token)
  = match answer w req with
    | Return response =>
        match response_read response with
        | inr raw =>
            match bytes_decode raw with
            | inr response_data =>
                match json_loads response_data with
                | inr v => ([req], Return v)
                | inl msg => except_clauses (Exception msg) w [req]
                end
            | inl msg => except_clauses (Exception msg) w [req]
            end
        | inl e => except_clauses e w [req]
        end
    | Raise e => except_clauses e w [req]
    end.
Proof.
  intros [Henv Hne] Hdumps req.
  unfold run, dataset_scalyr_query, bind at 1, os_environ_get.
  fold SCALYR_API_TOKEN. rewrite Henv, (truthy_nonempty _ Hne).
  unfold try_except, bind at 1, lift at 1. rewrite Hdumps.
  unfold ret at 1, bind, urlopen, lift, lift_exn, ret, raise.
  change (mkRequest _ _ _ _) with req. cbn [app].
  destruct (answer w req) as [response|e]; [|done].
  destruct (response_read response) as [e|raw]; [done|].
  destruct (bytes_decode raw) as [msg|response_data]; [done|].
  by destruct (json_loads response_data).
Qed.

(** The [except] clauses hand nothing to [urlopen], and look neither at
    the world nor at the log. *)
Lemma except_clauses_log e w log : fst (except_clauses e w log) = log.
Proof.
  destruct e as [code reason fp| | | |]; try done.
  unfold except_clauses, on_http_error, bind, lift, lift_exn, ret, raise.
  destruct fp as [[e|raw]|]; cbn; [done| |done].
  by destruct (bytes_decode raw).
Qed.

Lemma except_clauses_result e w w' log log' :
  snd (except_clauses e w log) = snd (except_clauses e w' log').
Proof.
  destruct e as [code reason fp| | | |]; try done.
  unfold except_clauses, on_http_error, bind, lift, lift_exn, ret, raise.
  destruct fp as [[e|raw]|]; cbn; [done| |done].
  by destruct (bytes_decode raw).
Qed.

(** What the HTTP clause returns, when it returns. *)
Lemma on_http_error_returns e code reason fp w log v :
  snd (on_http_error e code reason fp w log) = Return v →
  ∃ d, v = VDict
    [ ("error", VStr ("HTTP " +:+ str_of_int code +:+ ": " +:+ reason));
      ("details", d) ].
Proof.
  unfold on_http_error, bind, lift, lift_exn, ret, raise.
  destruct fp as [[e'|raw]|]; cbn; [done| |].
  - destruct (bytes_decode raw) as [msg|text]; cbn; [done|].
    intros [= <-]. by eexists.
  - intros [= <-]. by eexists.
Qed.

(** The requests of a call, in every world. *)
Lemma requests_of_call w filter start_time end_time max_count columns
    continuation_token :
  fst (run w (dataset_scalyr_query filter start_time end_time max_count
                columns continuation_token))
  = match truthy (environ w !! SCALYR_API_TOKEN) with
    | Some token =>
        match json_dumps (VDict (request_body token filter start_time
                                   end_time max_count columns
                                   continuation_token)) with
        | inr payload => [post_request payload]
        | inl _ => []
        end
    | None => []
    end.
Proof.
  destruct (truthy (environ w !! SCALYR_API_TOKEN)) as [token|] eqn:Htruthy.
  - apply truthy_configured in Htruthy as Hcfg.
    destruct (json_dumps _) as [msg|payload] eqn:Hdumps.
    + by rewrite (run_dumps_failure _ _ _ _ _ _ _ _ _ Hcfg Hdumps).
    + rewrite (run_configured _ _ _ _ _ _ _ _ _ Hcfg Hdumps); cbn zeta.
      destruct (answer w _) as [response|e]; [|apply except_clauses_log].
      destruct (response_read response) as [e|raw];
        [apply except_clauses_log|].
      destruct (bytes_decode raw) as [msg|response_data]; [done|].
      by destruct (json_loads response_data).
  - by rewrite run_not_configured.
Qed.

(** With a credential and a serialised body exactly one request is handed
    to [urlopen], whatever happens to it. *)
Lemma one_request_goes_out w token filter start_time end_time max_count
    columns continuation_token payload :
  configured w token →
  json_dumps (VDict (request_body token filter start_time end_time max_count
                       columns continuation_token)) = inr payload →
  fst (run w (dataset_scalyr_query filter start_time end_time max_count
                columns continuation_token))
  = [post_request payload].
Proof.
  intros Hcfg Hdumps. rewrite requests_of_call.
  apply truthy_configured in Hcfg as ->. by rewrite Hdumps.
Qed.

(** With a credential, what the call returns or raises is decided by the
    answer of [urlopen] to its request. *)
Lemma result_decided_by_answer w token filter start_time end_time max_count
    columns continuation_token payload filter' start_time' end_time'
    max_count' columns' continuation_token' payload' :
  configured w token →
  json_dumps (VDict (request_body token filter start_time end_time max_count
                       columns continuation_token)) = inr payload →
  json_dumps (VDict (request_body token filter' start_time' end_time'
                       max_count' columns' continuation_token')) = inr payload' →
  answer w (post_request payload) = answer w (post_request payload') →
  snd (run w (dataset_scalyr_query filter start_time end_time max_count
                columns continuation_token))
  = snd (run w (dataset_scalyr_query filter' start_time' end_time' max_count'
                  columns' continuation_token')).
Proof.
  intros Hcfg Hdumps Hdumps' Hanswer.
  rewrite (run_configured _ _ _ _ _ _ _ _ _ Hcfg Hdumps),
          (run_configured _ _ _ _ _ _ _ _ _ Hcfg Hdumps'); cbn zeta.
  rewrite Hanswer.
  destruct (answer w (post_request payload')) as [response|e];
    [|apply except_clauses_result].
  destruct (response_read response) as [e|raw];
    [apply except_clauses_result|].
  destruct (bytes_decode raw) as [msg|response_data]; [done|].
  by destruct (json_loads response_data).
Qed.

(** The body of a request read back the way the tests do, when the codec
    gives back what it was given. *)
Lemma request_json_post_request payload (body : dict) :
  bytes_decode (str_encode payload) = inr payload →
  json_loads payload = inr (VDict body) →
  request_json (post_request payload) = inr (VDict body).
Proof. intros Hdecode Hloads. unfold request_json; cbn. by rewrite Hdecode. Qed.

(** *** The credential *)

(** C2.  When the credential is absent from the environment the call
    returns an Error Result whose message mentions the configuration key
    [SCALYR_API_TOKEN], and issues no request. *)
Theorem missing_credential_is_reported w filter start_time end_time max_count
    columns continuation_token :
  environ w !! SCALYR_API_TOKEN = None →
  ∃ msg,
    run w (dataset_scalyr_query filter start_time end_time max_count columns
             continuation_token)
    = ([], Return (VDict [("error", VStr msg)]))
    ∧ mentions SCALYR_API_TOKEN msg.
Proof.
  intros Henv. eexists. split.
  - apply run_not_configured. by rewrite Henv.
  - by exists "", " environment variable not set".
Qed.

(** C10.  A credential that is present but empty is treated exactly like an
    absent one: the same Error Result naming [SCALYR_API_TOKEN], no request;
    the whole outcome equals that of the call with the key unset. *)
Theorem empty_credential_is_missing w filter start_time end_time max_count
    columns continuation_token :
  environ w !! SCALYR_API_TOKEN = Some "" →
  let query := dataset_scalyr_query filter start_time end_time max_count
                 columns continuation_token in
  run w query = run (unset_credential w) query
  ∧ ∃ msg, run w query = ([], Return (VDict [("error", VStr msg)]))
           ∧ mentions SCALYR_API_TOKEN msg.
Proof.
  intros Henv query. unfold query.
  rewrite !run_not_configured.
  - split; [done|]. eexists. split; [done|].
    by exists "", " environment variable not set".
  - unfold unset_credential; cbn. by rewrite lookup_delete_eq.
  - by rewrite Henv.
Qed.

(** *** The request body *)

(** C3.  With the credential configured and every optional parameter left
    out, exactly one request is handed to [urlopen]: the POST whose data
    are the serialisation of the body
    [{token, queryType: "log", filter, startTime: "4h", endTime: "0h",
    maxCount: 100, columns: ""}].  That body has [startTime = "4h"],
    [endTime = "0h"], [maxCount = 100], [columns = ""] and
    [queryType = "log"], and no [continuationToken] key at all; read back
    from the bytes of the request, it is that mapping. *)
Theorem defaults_in_request_body w token filter payload :
  configured w token →
  let body := [ ("token", VStr token); ("queryType", VStr "log");
                ("filter", VStr filter); ("startTime", VStr "4h");
                ("endTime", VStr "0h"); ("maxCount", VInt 100);
                ("columns", VStr "") ] in
  json_dumps (VDict body) = inr payload →
  let log := fst (run w (call filter no_kwargs)) in
  log = [post_request payload]
  ∧ dict_get body "startTime" = Some (VStr "4h")
  ∧ dict_get body "endTime" = Some (VStr "0h")
  ∧ dict_get body "maxCount" = Some (VInt 100)
  ∧ dict_get body "columns" = Some (VStr "")
  ∧ dict_get body "queryType" = Some (VStr "log")
  ∧ dict_get body "continuationToken" = None
  ∧ (bytes_decode (str_encode payload) = inr payload →
     json_loads payload = inr (VDict body) →
     Forall (λ req, request_json req = inr (VDict body)) log).
Proof.
  intros Hcfg body Hdumps log.
  assert (Hlog : log = [post_request payload]).
  { unfold log, call; cbn [no_kwargs kw_start_time kw_end_time kw_max_count
      kw_columns kw_continuation_token default].
    by apply (one_request_goes_out _ token). }
  split; [done|]. do 6 (split; [reflexivity|]).
  intros Hdecode Hloads. rewrite Hlog.
  apply List.Forall_cons; [|apply List.Forall_nil].
    by apply request_json_post_request.
Qed.

(** C4, as amended.  When a non-empty [continuation_token] is supplied, the
    one request handed to [urlopen] carries the serialisation of a body
    that has the key [continuationToken], with the supplied token as its
    value; read back from the bytes of the request, the body is that
    mapping. *)
Theorem continuation_token_is_forwarded w token filter start_time end_time
    max_count columns ct payload :
  configured w token →
  ct ≠ "" →
  let body := request_body token filter start_time end_time max_count columns
                (Some ct) in
  json_dumps (VDict body) = inr payload →
  let log := fst (run w (dataset_scalyr_query filter start_time end_time
                           max_count columns (Some ct))) in
  log = [post_request payload]
  ∧ dict_get body "continuationToken" = Some (VStr ct)
  ∧ (bytes_decode (str_encode payload) = inr payload →
     json_loads payload = inr (VDict body) →
     Forall (λ req, request_json req = inr (VDict body)) log).
Proof.
  intros Hcfg Hct body Hdumps log.
  assert (Hlog : log = [post_request payload])
    by by apply (one_request_goes_out _ token).
  split; [done|]. split.
  - unfold body, request_body. rewrite (truthy_nonempty _ Hct).
    apply dict_get_set_eq.
  - intros Hdecode Hloads. rewrite Hlog.
    apply List.Forall_cons; [|apply List.Forall_nil].
    by apply request_json_post_request.
Qed.

(** C8, as amended.  Whatever integer [max_count] is, inside or outside
    1..5000, as long as [json.dumps] serialises the body the call is not
    stopped locally: the request is handed to [urlopen], and it carries the
    serialisation of a body whose [maxCount] is the supplied value.  No
    branch looks at the value: a call with another [max_count] whose
    request gets the same answer ends the same way. *)
Theorem max_count_is_forwarded w token filter start_time end_time max_count
    columns continuation_token payload :
  configured w token →
  let query n := dataset_scalyr_query filter start_time end_time n columns
                   continuation_token in
  let body n := request_body token filter start_time end_time n columns
                  continuation_token in
  json_dumps (VDict (body max_count)) = inr payload →
  let log := fst (run w (query max_count)) in
  log = [post_request payload]
  ∧ dict_get (body max_count) "maxCount" = Some (VInt max_count)
  ∧ (bytes_decode (str_encode payload) = inr payload →
     json_loads payload = inr (VDict (body max_count)) →
     Forall (λ req, request_json req = inr (VDict (body max_count))) log)
  ∧ ∀ n payload',
      json_dumps (VDict (body n)) = inr payload' →
      answer w (post_request payload') = answer w (post_request payload) →
      snd (run w (query n)) = snd (run w (query max_count)).
Proof.
  intros Hcfg query body Hdumps log.
  assert (Hlog : log = [post_request payload])
    by by apply (one_request_goes_out _ token).
  split; [done|]. split; [|split].
  - unfold body, request_body. destruct (truthy continuation_token); [|done].
    by rewrite dict_get_set_ne.
  - intros Hdecode Hloads. rewrite Hlog.
    apply List.Forall_cons; [|apply List.Forall_nil].
    by apply request_json_post_request.
  - intros n payload' Hdumps' Hanswer.
    by apply (result_decided_by_answer _ token _ _ _ _ _ _ payload'
                _ _ _ _ _ _ payload).
Qed.

(** C9.  A [continuation_token] supplied as the empty string is left out of
    the body, and the whole call behaves as with no token at all. *)
Theorem empty_continuation_token_is_omitted w token filter start_time end_time
    max_count columns :
  configured w token →
  let query ct := dataset_scalyr_query filter start_time end_time max_count
                    columns ct in
  let body := request_body token filter start_time end_time max_count columns
                (Some "") in
  dict_get body "continuationToken" = None
  ∧ run w (query (Some "")) = run w (query None)
  ∧ ∀ payload, json_dumps (VDict body) = inr payload →
               fst (run w (query (Some ""))) = [post_request payload].
Proof.
  intros Hcfg query body. split; [done|]. split; [done|].
  intros payload Hdumps. by apply (one_request_goes_out _ token).
Qed.

(** *** The success path *)

(** C1, as amended.  On a 2xx answer whose body parses as JSON the call
    returns exactly the parsed value; that value is a mapping if and only if
    the parsed body is one. *)
Theorem success_returns_parsed_body w token filter start_time end_time
    max_count columns continuation_token payload response raw text v :
  configured w token →
  json_dumps (VDict (request_body token filter start_time end_time max_count
                       columns continuation_token)) = inr payload →
  let req := post_request payload in
  let query := dataset_scalyr_query filter start_time end_time max_count
                 columns continuation_token in
  answer w req = Return response →
  response_read response = inr raw →
  bytes_decode raw = inr text →
  json_loads text = inr v →
  run w query = ([req], Return v)
  ∧ ((∃ d, snd (run w query) = Return (VDict d)) ↔ is_dict v = true).
Proof.
  intros Hcfg Hdumps req query Hanswer Hread Hdecode Hloads.
  assert (Hrun : run w query = ([req], Return v)).
  { unfold query. rewrite (run_configured _ _ _ _ _ _ _ _ _ Hcfg Hdumps).
    cbn zeta. fold req. by rewrite Hanswer, Hread, Hdecode, Hloads. }
  split; [done|]. rewrite Hrun; cbn. split.
  - by intros [d [= ->]].
  - destruct v; try discriminate. eauto.
Qed.

(** *** The error paths *)

(** X5.  On a non-2xx answer whose error body is read and is the UTF-8 text
    [text], the call returns [{error: "HTTP <code>: <reason>", details: d}],
    where [d] is the parsed body when [text] is JSON and the raw text
    otherwise. *)
Lemma http_error_is_reported w token filter start_time end_time max_count
    columns continuation_token payload code reason raw text :
  configured w token →
  json_dumps (VDict (request_body token filter start_time end_time max_count
                       columns continuation_token)) = inr payload →
  let req := post_request payload in
  answer w req = Raise (HTTPError code reason (Some (inr raw))) →
  bytes_decode raw = inr text →
  ∃ d,
    run w (dataset_scalyr_query filter start_time end_time max_count columns
             continuation_token)
    = ([req], Return (VDict
        [ ("error", VStr ("HTTP " +:+ str_of_int code +:+ ": " +:+ reason));
          ("details", d) ]))
    ∧ (∀ v, json_loads text = inr v → d = v)
    ∧ ((∀ v, json_loads text ≠ inr v) → d = VStr text).
Proof.
  intros Hcfg Hdumps req Hanswer Hdecode.
  rewrite (run_configured _ _ _ _ _ _ _ _ _ Hcfg Hdumps); cbn zeta. fold req.
  rewrite Hanswer.
  unfold except_clauses, on_http_error, bind, lift, lift_exn, ret; cbn.
  rewrite Hdecode. eexists. split; [reflexivity|].
  destruct (json_loads text) as [msg|v']; split; try congruence.
  intros Hno. by destruct (Hno v').
Qed.

(** X6.  When the HTTP error carries no body stream ([e.fp] is falsy), the
    text examined is [str(e)], that is [HTTP Error <code>: <reason>]: the
    call returns [{error: "HTTP <code>: <reason>", details: d}] where [d] is
    that text, or its parsed value if it happens to be JSON; nothing is read
    or decoded, so nothing is raised. *)
Theorem http_error_without_body w token filter start_time end_time max_count
    columns continuation_token payload code reason :
  configured w token →
  json_dumps (VDict (request_body token filter start_time end_time max_count
                       columns continuation_token)) = inr payload →
  let req := post_request payload in
  let text := "HTTP Error " +:+ str_of_int code +:+ ": " +:+ reason in
  answer w req = Raise (HTTPError code reason None) →
  ∃ d,
    run w (dataset_scalyr_query filter start_time end_time max_count columns
             continuation_token)
    = ([req], Return (VDict
        [ ("error", VStr ("HTTP " +:+ str_of_int code +:+ ": " +:+ reason));
          ("details", d) ]))
    ∧ (∀ v, json_loads text = inr v → d = v)
    ∧ ((∀ v, json_loads text ≠ inr v) → d = VStr text).
Proof.
  intros Hcfg Hdumps req text Hanswer.
  rewrite (run_configured _ _ _ _ _ _ _ _ _ Hcfg Hdumps); cbn zeta. fold req.
  rewrite Hanswer.
  unfold except_clauses, on_http_error, bind, lift, ret; cbn. fold text.
  eexists. split; [reflexivity|].
  destruct (json_loads text) as [msg|v']; split; try congruence.
  intros Hno. by destruct (Hno v').
Qed.

(** X12.  The HTTP clause comes first: an [HTTPError], although it is a
    [URLError] too, is never reported in the transport form.  Whenever the
    call returns after one, with or without a body stream, the value is
    [{error: "HTTP <code>: <reason>", details: d}] with the code and reason
    of the error. *)
Theorem http_error_takes_precedence w token filter start_time end_time
    max_count columns continuation_token payload code reason fp v :
  configured w token →
  json_dumps (VDict (request_body token filter start_time end_time max_count
                       columns continuation_token)) = inr payload →
  answer w (post_request payload) = Raise (HTTPError code reason fp) →
  snd (run w (dataset_scalyr_query filter start_time end_time max_count
                columns continuation_token)) = Return v →
  (∃ d, v = VDict
      [ ("error", VStr ("HTTP " +:+ str_of_int code +:+ ": " +:+ reason));
        ("details", d) ])
  ∧ ∀ text, v ≠ VDict [("error", VStr ("URL Error: " +:+ text))].
Proof.
  intros Hcfg Hdumps Hanswer.
  rewrite (run_configured _ _ _ _ _ _ _ _ _ Hcfg Hdumps); cbn zeta.
  rewrite Hanswer. cbn [except_clauses].
  intros [d ->]%on_http_error_returns. split; [by eexists|done].
Qed.

(** C6, as amended.  When [urlopen] reports the failure of the transport as
    a [URLError], the call returns [{error: "URL Error: <reason>"}] with the
    reason of the failure, and the mapping has no [details] key. *)
Theorem transport_error_is_reported w token filter start_time end_time
    max_count columns continuation_token payload reason :
  configured w token →
  json_dumps (VDict (request_body token filter start_time end_time max_count
                       columns continuation_token)) = inr payload →
  let req := post_request payload in
  answer w req = Raise (URLError reason) →
  ∃ d,
    run w (dataset_scalyr_query filter start_time end_time max_count columns
             continuation_token)
    = ([req], Return (VDict d))
    ∧ d = [("error", VStr ("URL Error: " +:+ reason))]
    ∧ dict_get d "details" = None.
Proof.
  intros Hcfg Hdumps req Hanswer. eexists. split; [|split; [reflexivity|done]].
  rewrite (run_configured _ _ _ _ _ _ _ _ _ Hcfg Hdumps); cbn zeta. fold req.
  by rewrite Hanswer.
Qed.

(** X3.  A failure inside the [try] block that is neither an HTTP nor a
    transport error is reported as [{error: "Unexpected error: <message>"}]:
    an exception of another class from [urlopen], a failing [read], a body
    that is not UTF-8, a body that is not JSON. *)
Lemma unexpected_failure_is_reported w token filter start_time end_time
    max_count columns continuation_token payload msg :
  configured w token →
  json_dumps (VDict (request_body token filter start_time end_time max_count
                       columns continuation_token)) = inr payload →
  let req := post_request payload in
  answer w req = Raise (Exception msg)
  ∨ (∃ response, answer w req = Return response
       ∧ (response_read response = inl (Exception msg)
          ∨ ∃ raw, response_read response = inr raw
              ∧ (bytes_decode raw = inl msg
                 ∨ ∃ text, bytes_decode raw = inr text
                     ∧ json_loads text = inl msg))) →
  run w (dataset_scalyr_query filter start_time end_time max_count columns
           continuation_token)
  = ([req], Return (VDict [("error", VStr ("Unexpected error: " +:+ msg))])).
Proof.
  intros Hcfg Hdumps req Hfail.
  rewrite (run_configured _ _ _ _ _ _ _ _ _ Hcfg Hdumps); cbn zeta. fold req.
  destruct Hfail as [->|(response & -> & [->|(raw & -> & [->|(text & -> & ->)])])];
    done.
Qed.

(** X13.  When [json.dumps] raises on the body (line 77 is inside the
    [try]), the call hands nothing to [urlopen] and returns
    [{error: "Unexpected error: <message>"}] with the message of the
    exception. *)
Theorem dumps_failure_is_reported w token filter start_time end_time
    max_count columns continuation_token msg :
  configured w token →
  json_dumps (VDict (request_body token filter start_time end_time max_count
                       columns continuation_token)) = inl msg →
  run w (dataset_scalyr_query filter start_time end_time max_count columns
           continuation_token)
  = ([], Return (VDict [("error", VStr ("Unexpected error: " +:+ msg))])).
Proof. apply run_dumps_failure. Qed.

(** X15.  An [OSError] that urllib does not wrap in a [URLError] (a
    connection reset or a timeout while it waits for or reads the
    response) falls to the last clause: the call returns
    [{error: "Unexpected error: <message>"}], not the transport form. *)
Theorem unwrapped_os_error_is_unexpected w token filter start_time end_time
    max_count columns continuation_token payload msg :
  configured w token →
  json_dumps (VDict (request_body token filter start_time end_time max_count
                       columns continuation_token)) = inr payload →
  let req := post_request payload in
  raised_by_io w req (OSError msg) →
  run w (dataset_scalyr_query filter start_time end_time max_count columns
           continuation_token)
  = ([req], Return (VDict [("error", VStr ("Unexpected error: " +:+ msg))])).
Proof.
  intros Hcfg Hdumps req Hraised.
  rewrite (run_configured _ _ _ _ _ _ _ _ _ Hcfg Hdumps); cbn zeta. fold req.
  by destruct Hraised as [->|(response & -> & ->)].
Qed.

(** X14.  An exception outside [Exception] ([KeyboardInterrupt],
    [SystemExit]) raised by [urlopen] or by [response.read()] matches none
    of the three clauses and leaves the call as it is. *)
Theorem base_exception_passes_through w token filter start_time end_time
    max_count columns continuation_token payload msg :
  configured w token →
  json_dumps (VDict (request_body token filter start_time end_time max_count
                       columns continuation_token)) = inr payload →
  let req := post_request payload in
  raised_by_io w req (BaseException msg) →
  run w (dataset_scalyr_query filter start_time end_time max_count columns
           continuation_token)
  = ([req], Raise (BaseException msg)).
Proof.
  intros Hcfg Hdumps req Hraised.
  rewrite (run_configured _ _ _ _ _ _ _ _ _ Hcfg Hdumps); cbn zeta. fold req.
  by destruct Hraised as [->|(response & -> & ->)].
Qed.

(** X4.  An exception of class [Exception] leaves the call if and only if
    it is raised inside the HTTP clause: the credential is configured, the
    body is serialised, [urlopen] or [response.read()] raised an
    [HTTPError] with a body stream, and reading that stream raised the
    exception, or decoding its bytes as UTF-8 did. *)
Theorem escape_characterised w filter start_time end_time max_count columns
    continuation_token e :
  is_Exception e = true →
  snd (run w (dataset_scalyr_query filter start_time end_time max_count
                columns continuation_token)) = Raise e
  ↔ ∃ token payload code reason r,
      configured w token
      ∧ json_dumps (VDict (request_body token filter start_time end_time
                             max_count columns continuation_token))
        = inr payload
      ∧ raised_by_io w (post_request payload)
          (HTTPError code reason (Some r))
      ∧ (r = inl e
         ∨ ∃ raw msg, r = inr raw ∧ bytes_decode raw = inl msg
                      ∧ e = Exception msg).
Proof.
  intros Hclass. split.
  - destruct (truthy (environ w !! SCALYR_API_TOKEN)) as [token|] eqn:Htruthy;
      [|by rewrite run_not_configured].
    apply truthy_configured in Htruthy as Hcfg.
    destruct (json_dumps (VDict (request_body token filter start_time end_time
                max_count columns continuation_token)))
      as [msg|payload] eqn:Hdumps;
      [by rewrite (run_dumps_failure _ _ _ _ _ _ _ _ _ Hcfg Hdumps)|].
    rewrite (run_configured _ _ _ _ _ _ _ _ _ Hcfg Hdumps); cbn zeta.
    assert (Hclauses : ∀ e0 log,
      snd (except_clauses e0 w log) = Raise e →
      ∃ code reason r, e0 = HTTPError code reason (Some r)
        ∧ (r = inl e ∨ ∃ raw msg, r = inr raw ∧ bytes_decode raw = inl msg
                                  ∧ e = Exception msg)).
    { intros [code reason fp| | | |msg] log; cbn; try done.
      - unfold on_http_error, bind, lift, lift_exn, ret, raise.
        destruct fp as [[e'|raw]|]; cbn; [| |done].
        + intros [= <-]. exists code, reason, (inl e'). by split; [|left].
        + destruct (bytes_decode raw) as [msg|text] eqn:Hdecode; cbn; [|done].
          intros [= <-]. exists code, reason, (inr raw). split; [done|].
          right. by exists raw, msg.
      - intros [= <-]. done. }
    destruct (answer w (post_request payload)) as [response|e0] eqn:Hanswer.
    + destruct (response_read response) as [e0|raw] eqn:Hread.
      * intros (code & reason & r & -> & Hr)%Hclauses.
        exists token, payload, code, reason, r.
        split; [done|]. split; [done|]. split; [|done].
        right. by exists response.
      * destruct (bytes_decode raw) as [msg|response_data]; [done|].
        by destruct (json_loads response_data).
    + intros (code & reason & r & -> & Hr)%Hclauses.
      exists token, payload, code, reason, r.
      split; [done|]. split; [done|]. split; [by left|done].
  - intros (token & payload & code & reason & r & Hcfg & Hdumps & Hraised & Hr).
    rewrite (run_configured _ _ _ _ _ _ _ _ _ Hcfg Hdumps); cbn zeta.
    assert (Hclauses : ∀ log,
      snd (except_clauses (HTTPError code reason (Some r)) w log) = Raise e).
    { intros log. unfold except_clauses, on_http_error, bind, lift, lift_exn,
        ret, raise.
      destruct Hr as [->|(raw & msg & -> & Hdecode & ->)]; cbn; [done|].
      by rewrite Hdecode. }
    by destruct Hraised as [->|(response & -> & ->)].
Qed.

(** *** Further properties of the call *)

Lemma except_clauses_world e w w' log :
  except_clauses e w log = except_clauses e w' log.
Proof.
  destruct e as [code reason fp| | | |]; try done.
  unfold except_clauses, on_http_error, bind, lift, lift_exn, ret, raise.
  destruct fp as [[e|raw]|]; cbn; [done| |done].
  by destruct (bytes_decode raw).
Qed.

(** X1.  Every [Request] object the call hands to [urlopen], whatever the
    arguments and the world, is built for the fixed endpoint
    [https://app.scalyr.com/api/query], with the method [POST] and with the
    single header [Content-Type: application/json]. *)
Theorem request_is_fixed_post w filter start_time end_time max_count columns
    continuation_token :
  Forall
    (λ req, full_url req = "https://app.scalyr.com/api/query"
            ∧ method req = "POST"
            ∧ headers req = [("Content-Type", "application/json")])
    (fst (run w (dataset_scalyr_query filter start_time end_time max_count
                   columns continuation_token))).
Proof.
  rewrite requests_of_call.
  destruct (truthy (environ w !! SCALYR_API_TOKEN)); [|constructor].
  destruct (json_dumps _); [constructor|]. by repeat constructor.
Qed.

(** X2.  A call calls [urlopen] at most once, whatever the answer (no
    retry after an error), and it does not call it at all exactly when the
    credential is absent or empty, or [json.dumps] raises on the body. *)
Theorem at_most_one_request w filter start_time end_time max_count columns
    continuation_token :
  let log := fst (run w (dataset_scalyr_query filter start_time end_time
                           max_count columns continuation_token)) in
  (length log ≤ 1)%nat
  ∧ (log = [] ↔ environ w !! SCALYR_API_TOKEN = None
               ∨ environ w !! SCALYR_API_TOKEN = Some ""
               ∨ ∃ token msg,
                   configured w token
                   ∧ json_dumps (VDict (request_body token filter start_time
                                          end_time max_count columns
                                          continuation_token)) = inl msg).
Proof.
  cbn zeta. rewrite requests_of_call. unfold configured.
  destruct (environ w !! SCALYR_API_TOKEN) as [[|c s]|] eqn:Henv; cbn.
  - split; [lia|]. split; auto.
  - destruct (json_dumps _) as [msg|payload] eqn:Hdumps; cbn.
    + split; [lia|]. split; [|done]. intros _. right; right.
      by exists (String c s), msg.
    + split; [lia|]. split; [done|].
      intros [|[|(token & msg & [[= <-] _] & Hmsg)]]; congruence.
  - split; [lia|]. split; auto.
Qed.

(** X7.  Whatever a call returns has one of five shapes: the configuration
    error, the parsed body of a 2xx answer, an HTTP error mapping with
    [details], a transport error mapping, or an unexpected-error mapping. *)
Theorem return_shapes w filter start_time end_time max_count columns
    continuation_token v :
  snd (run w (dataset_scalyr_query filter start_time end_time max_count
                columns continuation_token)) = Return v →
  v = VDict [("error", VStr "SCALYR_API_TOKEN environment variable not set")]
  ∨ (∃ token payload response raw text,
       configured w token
       ∧ json_dumps (VDict (request_body token filter start_time end_time
                              max_count columns continuation_token))
         = inr payload
       ∧ answer w (post_request payload) = Return response
       ∧ response_read response = inr raw
       ∧ bytes_decode raw = inr text
       ∧ json_loads text = inr v)
  ∨ (∃ code reason d,
       v = VDict [ ("error", VStr ("HTTP " +:+ str_of_int code +:+ ": " +:+ reason));
                   ("details", d) ])
  ∨ (∃ reason, v = VDict [("error", VStr ("URL Error: " +:+ reason))])
  ∨ (∃ msg, v = VDict [("error", VStr ("Unexpected error: " +:+ msg))]).
Proof.
  destruct (truthy (environ w !! SCALYR_API_TOKEN)) as [token|] eqn:Htruthy;
    [|rewrite run_not_configured by done; intros [= <-]; by left].
  apply truthy_configured in Htruthy as Hcfg.
  destruct (json_dumps (VDict (request_body token filter start_time end_time
              max_count columns continuation_token)))
    as [msg|payload] eqn:Hdumps.
  { rewrite (run_dumps_failure _ _ _ _ _ _ _ _ _ Hcfg Hdumps).
    intros [= <-]. do 4 right. by eexists. }
  rewrite (run_configured _ _ _ _ _ _ _ _ _ Hcfg Hdumps); cbn zeta.
  assert (Hclauses : ∀ e0 log,
    snd (except_clauses e0 w log) = Return v →
    (∃ code reason d,
       v = VDict [ ("error", VStr ("HTTP " +:+ str_of_int code +:+ ": " +:+ reason));
                   ("details", d) ])
    ∨ (∃ reason, v = VDict [("error", VStr ("URL Error: " +:+ reason))])
    ∨ (∃ msg, v = VDict [("error", VStr ("Unexpected error: " +:+ msg))])).
  { intros [code reason fp|reason|msg|msg|msg] log; cbn [except_clauses].
    - intros [d ->]%on_http_error_returns. left. by do 3 eexists.
    - intros [= <-]. right; left. by eexists.
    - intros [= <-]. right; right. by eexists.
    - intros [= <-]. right; right. by eexists.
    - done. }
  destruct (answer w (post_request payload)) as [response|e0] eqn:Hanswer;
    [|intros Hv%Hclauses; by do 2 right].
  destruct (response_read response) as [e0|raw] eqn:Hread;
    [intros Hv%Hclauses; by do 2 right|].
  destruct (bytes_decode raw) as [msg|text] eqn:Hdecode;
    [intros Hv%Hclauses; by do 2 right|].
  destruct (json_loads text) as [msg|v'] eqn:Hloads;
    [intros Hv%Hclauses; by do 2 right|].
  intros [= <-]. right; left. by exists token, payload, response, raw, text.
Qed.

(** X8.  The code of the function consults the environment for the
    credential and for nothing else: in two worlds whose environments agree
    on [SCALYR_API_TOKEN] and where [urlopen] (which may consult the
    environment itself, for proxies) answers alike, the call hands
    [urlopen] the same requests and ends the same way. *)
Theorem only_credential_is_read w w' filter start_time end_time max_count
    columns continuation_token :
  environ w !! SCALYR_API_TOKEN = environ w' !! SCALYR_API_TOKEN →
  (∀ req, answer w req = answer w' req) →
  run w (dataset_scalyr_query filter start_time end_time max_count columns
           continuation_token)
  = run w' (dataset_scalyr_query filter start_time end_time max_count columns
              continuation_token).
Proof.
  intros Henv Hanswer.
  destruct (truthy (environ w !! SCALYR_API_TOKEN)) as [token|] eqn:Htruthy.
  - assert (Hcfg : configured w token) by by apply truthy_configured.
    assert (Hcfg' : configured w' token).
    { apply truthy_configured. by rewrite <-Henv. }
    destruct (json_dumps (VDict (request_body token filter start_time end_time
                max_count columns continuation_token)))
      as [msg|payload] eqn:Hdumps.
    { by rewrite (run_dumps_failure _ _ _ _ _ _ _ _ _ Hcfg Hdumps),
                 (run_dumps_failure _ _ _ _ _ _ _ _ _ Hcfg' Hdumps). }
    rewrite (run_configured _ _ _ _ _ _ _ _ _ Hcfg Hdumps),
            (run_configured _ _ _ _ _ _ _ _ _ Hcfg' Hdumps); cbn zeta.
    rewrite Hanswer.
    destruct (answer w' _) as [response|e]; [|apply except_clauses_world].
    destruct (response_read response) as [e|raw];
      [apply except_clauses_world|].
    destruct (bytes_decode raw) as [msg|response_data]; [done|].
    by destruct (json_loads response_data).
  - rewrite !run_not_configured; [done| |done]. by rewrite <-Henv.
Qed.

(** X9.  With the credential configured, the one request handed to
    [urlopen] carries the serialisation of a body that holds the credential
    under [token], the literal [log] under [queryType], and the arguments
    [filter], [start_time], [end_time] and [columns] unchanged under
    [filter], [startTime], [endTime] and [columns], whatever strings they
    are.  The keys of that body are distinct: the seven fixed keys in their
    order, followed by [continuationToken] exactly when the continuation
    token is a non-empty string.  Read back from the bytes of the request,
    the body is that mapping. *)
Theorem parameters_are_forwarded w token filter start_time end_time max_count
    columns continuation_token payload :
  configured w token →
  let body := request_body token filter start_time end_time max_count columns
                continuation_token in
  json_dumps (VDict body) = inr payload →
  let log := fst (run w (dataset_scalyr_query filter start_time end_time
                           max_count columns continuation_token)) in
  log = [post_request payload]
  ∧ dict_get body "token" = Some (VStr token)
  ∧ dict_get body "queryType" = Some (VStr "log")
  ∧ dict_get body "filter" = Some (VStr filter)
  ∧ dict_get body "startTime" = Some (VStr start_time)
  ∧ dict_get body "endTime" = Some (VStr end_time)
  ∧ dict_get body "columns" = Some (VStr columns)
  ∧ fst <$> body
    = (body_keys ++ match truthy continuation_token with
                    | Some _ => ["continuationToken"]
                    | None => []
                    end)%list
  ∧ NoDup (fst <$> body)
  ∧ (bytes_decode (str_encode payload) = inr payload →
     json_loads payload = inr (VDict body) →
     Forall (λ req, request_json req = inr (VDict body)) log).
Proof.
  intros Hcfg body Hdumps log.
  assert (Hlog : log = [post_request payload])
    by by apply (one_request_goes_out _ token).
  split; [done|].
  unfold body, request_body.
  destruct (truthy continuation_token) as [ct|];
    (do 7 (split; [reflexivity|])); cbn.
  all: split;
    [match goal with |- NoDup ?l => exact (bool_decide_unpack (NoDup l) I) end|].
  all: intros Hdecode Hloads; rewrite Hlog.
  all: apply List.Forall_cons; [|apply List.Forall_nil].
  all: by apply request_json_post_request.
Qed.

(** *** The text of an HTTP error *)

(** Cutting at the first colon. *)
Lemma cut_at_colon a a' x x' :
  has_char ":" a = false → has_char ":" a' = false →
  a +:+ String ":" x = a' +:+ String ":" x' → a = a' ∧ x = x'.
Proof.
  revert a'. induction a as [|c a IH]; intros [|c' a']; cbn.
  - by intros _ _ [= ->].
  - intros _ Hno [= <- _]. by cbn in Hno.
  - intros Hno _ [= -> _]. by cbn in Hno.
  - intros [_ Ha]%orb_false_iff [_ Ha']%orb_false_iff [= -> Heq].
    destruct (IH a' Ha Ha' Heq) as [-> ->]. done.
Qed.

Lemma string_of_uint_no_colon d :
  has_char ":" (NilEmpty.string_of_uint d) = false.
Proof. induction d; cbn; done. Qed.

Lemma str_of_int_no_colon n : has_char ":" (str_of_int n) = false.
Proof.
  unfold str_of_int, NilZero.string_of_int, NilZero.string_of_uint.
  destruct (Z.to_int n) as [[]|[]]; cbn; try done;
    apply string_of_uint_no_colon.
Qed.

Lemma str_of_int_inj n n' : str_of_int n = str_of_int n' → n = n'.
Proof.
  unfold str_of_int. intros Heq.
  assert (Hnonnil : ∀ z, Z.to_int z ≠ Decimal.Pos Decimal.Nil
                         ∧ Z.to_int z ≠ Decimal.Neg Decimal.Nil).
  { intros [|p|p]; cbn; split; try discriminate;
      intros [= Hp]; by apply (DecimalPos.Unsigned.to_uint_nonnil p). }
  assert (Hread : ∀ z, NilZero.int_of_string (NilZero.string_of_int (Z.to_int z))
                       = Some (Z.to_int z)).
  { intros z. destruct (Hnonnil z). by apply NilZero.isi. }
  apply (f_equal NilZero.int_of_string) in Heq.
  rewrite !Hread in Heq. injection Heq as Heq.
  apply (f_equal Z.of_int) in Heq. by rewrite !DecimalZ.of_to in Heq.
Qed.

(** X10.  The [error] text of an HTTP error result determines the status
    code and the reason: when two calls that each got an [HTTPError] return
    results with the same [error] entry, the two errors had the same code
    and the same reason. *)
Theorem http_error_text_determines_code w w' token token' filter start_time
    end_time max_count columns continuation_token payload payload'
    code code' reason reason' fp fp' v v' :
  let query := dataset_scalyr_query filter start_time end_time max_count
                 columns continuation_token in
  let body t := request_body t filter start_time end_time max_count columns
                  continuation_token in
  configured w token →
  json_dumps (VDict (body token)) = inr payload →
  answer w (post_request payload) = Raise (HTTPError code reason fp) →
  snd (run w query) = Return v →
  configured w' token' →
  json_dumps (VDict (body token')) = inr payload' →
  answer w' (post_request payload') = Raise (HTTPError code' reason' fp') →
  snd (run w' query) = Return v' →
  value_get v "error" = value_get v' "error" →
  code = code' ∧ reason = reason'.
Proof.
  intros query body Hcfg Hdumps Hanswer Hv Hcfg' Hdumps' Hanswer' Hv'.
  unfold query in *.
  rewrite (run_configured _ _ _ _ _ _ _ _ _ Hcfg Hdumps) in Hv.
  rewrite (run_configured _ _ _ _ _ _ _ _ _ Hcfg' Hdumps') in Hv'.
  cbn zeta in *. rewrite Hanswer in Hv. rewrite Hanswer' in Hv'.
  cbn [except_clauses] in *.
  apply on_http_error_returns in Hv as [d ->].
  apply on_http_error_returns in Hv' as [d' ->].
  cbn. intros [= Heq].
  apply cut_at_colon in Heq as [Hcode [= ->]];
    [|apply str_of_int_no_colon..].
  split; [by apply str_of_int_inj|done].
Qed.

End Properties.

(** ** The properties on concrete calls

    The calls of the repository's tests, evaluated with the reference
    codec. *)

(** The shortcut of [fits_max_str_digits] is sound. *)
Lemma pow2_below_limit : 2 ^ 14000 < 10 ^ RefCodec.int_max_str_digits.
Proof. by vm_compute. Qed.

Lemma fits_max_str_digits_spec n :
  RefCodec.fits_max_str_digits n = true
  ↔ Z.abs n < 10 ^ RefCodec.int_max_str_digits.
Proof.
  unfold RefCodec.fits_max_str_digits.
  destruct (Z.log2 (Z.abs n) <? 14000)%Z eqn:Hlog; [|apply Z.ltb_lt].
  split; [intros _|done]. apply Z.ltb_lt in Hlog.
  destruct (proj1 (Z.le_lteq 0 (Z.abs n)) (Z.abs_nonneg n)) as [Hpos|<-].
  - eapply Z.lt_trans; [|apply pow2_below_limit].
    by apply Z.log2_lt_pow2.
  - by apply Z.pow_pos_nonneg.
Qed.

(** The reference [json.dumps] serialises every request body whose
    [max_count] has at most 4300 digits. *)
Lemma ref_dumps_request_body token filter start_time end_time max_count
    columns continuation_token :
  Z.abs max_count < 10 ^ RefCodec.int_max_str_digits →
  ∃ payload,
    json_dumps (VDict (request_body token filter start_time end_time
                         max_count columns continuation_token))
    = inr payload.
Proof.
  intros Hsmall%fits_max_str_digits_spec. unfold request_body.
  destruct (truthy continuation_token);
    cbn [json_dumps ref_json RefCodec.ref_dumps dict_set String.eqb Ascii.eqb
         Bool.eqb];
    unfold RefCodec.dumps_int; rewrite Hsmall; by eexists.
Qed.

(** [test_missing_api_token]. *)
Lemma missing_credential_is_reported_witness :
  environ world_no_credential !! SCALYR_API_TOKEN = None
  ∧ ∃ msg,
      run world_no_credential
        (dataset_scalyr_query "test filter" "4h" "0h" 100 "" None)
      = ([], Return (VDict [("error", VStr msg)]))
      ∧ mentions SCALYR_API_TOKEN msg.
Proof.
  split; [by vm_compute|].
  apply (missing_credential_is_reported world_no_credential). by vm_compute.
Defined.

Lemma empty_credential_is_missing_witness :
  environ world_empty_credential !! SCALYR_API_TOKEN = Some ""
  ∧ let query := dataset_scalyr_query "test filter" "4h" "0h" 100 "" None in
    run world_empty_credential query
    = run (unset_credential world_empty_credential) query
    ∧ ∃ msg,
        run world_empty_credential query
        = ([], Return (VDict [("error", VStr msg)]))
        ∧ mentions SCALYR_API_TOKEN msg.
Proof.
  split; [by vm_compute|].
  apply (empty_credential_is_missing world_empty_credential). by vm_compute.
Defined.

(** [test_query_with_default_parameters]. *)
Lemma defaults_in_request_body_witness :
  let body := default_body in
  let payload := payload_of body in
  let log := fst (run world_success (call "test" no_kwargs)) in
  configured world_success "test-token-123"
  ∧ json_dumps (VDict body) = inr payload
  ∧ log = [post_request payload]
  ∧ dict_get body "startTime" = Some (VStr "4h")
  ∧ dict_get body "endTime" = Some (VStr "0h")
  ∧ dict_get body "maxCount" = Some (VInt 100)
  ∧ dict_get body "columns" = Some (VStr "")
  ∧ dict_get body "queryType" = Some (VStr "log")
  ∧ dict_get body "continuationToken" = None
  ∧ (bytes_decode (str_encode payload) = inr payload →
     json_loads payload = inr (VDict body) →
     Forall (λ req, request_json req = inr (VDict body)) log).
Proof.
  cbn zeta. split; [split; [by vm_compute | discriminate]|].
  split; [by vm_compute|].
  apply (defaults_in_request_body world_success "test-token-123" "test"
           (payload_of default_body)).
  - split; [by vm_compute | discriminate].
  - by vm_compute.
Defined.

(** [test_query_with_custom_parameters]. *)
Lemma continuation_token_is_forwarded_witness :
  let body := request_body "test-token-123" "error" "1h" "0h" 200
                "timestamp,message,severity" (Some "token-123") in
  let payload := payload_of body in
  let log := fst (run world_success
                    (dataset_scalyr_query "error" "1h" "0h" 200
                       "timestamp,message,severity" (Some "token-123"))) in
  configured world_success "test-token-123"
  ∧ "token-123" ≠ ""
  ∧ json_dumps (VDict body) = inr payload
  ∧ log = [post_request payload]
  ∧ dict_get body "continuationToken" = Some (VStr "token-123")
  ∧ (bytes_decode (str_encode payload) = inr payload →
     json_loads payload = inr (VDict body) →
     Forall (λ req, request_json req = inr (VDict body)) log).
Proof.
  cbn zeta. split; [split; [by vm_compute | discriminate]|].
  split; [discriminate|]. split; [by vm_compute|].
  apply (continuation_token_is_forwarded world_success "test-token-123").
  - split; [by vm_compute | discriminate].
  - discriminate.
  - by vm_compute.
Defined.

(** An empty continuation token is supplied; the body that is sent, read
    back from the bytes of the request, has no [continuationToken] key,
    although the claim C4 promises one holding the supplied value. *)
Lemma empty_continuation_token_not_forwarded :
  let body := default_body in
  let log := fst (run world_success
                    (dataset_scalyr_query "test" "4h" "0h" 100 "" (Some ""))) in
  configured world_success "test-token-123"
  ∧ log = [post_request (payload_of body)]
  ∧ Forall (λ req, request_json req = inr (VDict body)) log
  ∧ dict_get body "continuationToken" = None
  ∧ dict_get body "continuationToken" ≠ Some (VStr "").
Proof.
  cbn zeta. split; [split; [by vm_compute | discriminate]|].
  assert (Hlog : fst (run world_success
                        (dataset_scalyr_query "test" "4h" "0h" 100 "" (Some "")))
                 = [post_request (payload_of default_body)]) by by vm_compute.
  rewrite Hlog. split; [done|]. split; [|done].
  apply List.Forall_cons; [by vm_compute | apply List.Forall_nil].
Qed.

(** A [max_count] outside 1..5000. *)
Lemma max_count_is_forwarded_witness :
  let query n := dataset_scalyr_query "test" "4h" "0h" n "" None in
  let body n := request_body "test-token-123" "test" "4h" "0h" n "" None in
  let payload := payload_of (body (-1)) in
  let log := fst (run world_success (query (-1))) in
  configured world_success "test-token-123"
  ∧ json_dumps (VDict (body (-1))) = inr payload
  ∧ log = [post_request payload]
  ∧ dict_get (body (-1)) "maxCount" = Some (VInt (-1))
  ∧ (bytes_decode (str_encode payload) = inr payload →
     json_loads payload = inr (VDict (body (-1))) →
     Forall (λ req, request_json req = inr (VDict (body (-1)))) log)
  ∧ ∀ n payload',
      json_dumps (VDict (body n)) = inr payload' →
      answer world_success (post_request payload')
      = answer world_success (post_request payload) →
      snd (run world_success (query n)) = snd (run world_success (query (-1))).
Proof.
  cbn zeta. split; [split; [by vm_compute | discriminate]|].
  split; [by vm_compute|].
  apply (max_count_is_forwarded world_success "test-token-123" "test" "4h"
           "0h" (-1) "" None).
  - split; [by vm_compute | discriminate].
  - by vm_compute.
Defined.

(** A [max_count] of 4301 digits: [json.dumps] raises inside the [try], so
    the call is stopped locally.  Nothing is handed to [urlopen], and the
    result is an error, although the claim C8 promises a request whose body
    carries the value. *)
Lemma huge_max_count_is_rejected_locally :
  configured world_success "test-token-123"
  ∧ run world_success
      (dataset_scalyr_query "test" "4h" "0h" (10 ^ 4300) "" None)
    = ([], Return (VDict
        [("error", VStr ("Unexpected error: "
            +:+ "Exceeds the limit (4300 digits) for integer string conversion; "
            +:+ "use sys.set_int_max_str_digits() to increase the limit"))])).
Proof. split; [split; [by vm_compute | discriminate] | by vm_compute]. Qed.

Lemma empty_continuation_token_is_omitted_witness :
  let query ct := dataset_scalyr_query "test" "4h" "0h" 100 "" ct in
  let body := request_body "test-token-123" "test" "4h" "0h" 100 "" (Some "") in
  configured world_success "test-token-123"
  ∧ dict_get body "continuationToken" = None
  ∧ run world_success (query (Some "")) = run world_success (query None)
  ∧ ∀ payload, json_dumps (VDict body) = inr payload →
               fst (run world_success (query (Some ""))) = [post_request payload].
Proof.
  cbn zeta. split; [split; [by vm_compute | discriminate]|].
  apply (empty_continuation_token_is_omitted world_success "test-token-123"
           "test" "4h" "0h" 100 "").
  split; [by vm_compute | discriminate].
Defined.

(** [test_query_with_default_parameters]: the mocked 2xx body comes back
    as the mapping it encodes. *)
Lemma success_returns_parsed_body_witness :
  let w := world_success in
  let payload := payload_of default_body in
  let req := post_request payload in
  let query := dataset_scalyr_query "test" "4h" "0h" 100 "" None in
  let v := VDict [("status", VStr "success")] in
  configured w "test-token-123"
  ∧ json_dumps (VDict default_body) = inr payload
  ∧ answer w req = Return (mkResponse (inr (mock_body v)))
  ∧ bytes_decode (mock_body v) = inr (payload_of [("status", VStr "success")])
  ∧ json_loads (payload_of [("status", VStr "success")]) = inr v
  ∧ run w query = ([req], Return v)
  ∧ ((∃ d, snd (run w query) = Return (VDict d)) ↔ is_dict v = true).
Proof.
  cbn zeta.
  split; [split; [by vm_compute | discriminate]|].
  split; [by vm_compute|]. split; [reflexivity|].
  split; [by vm_compute|]. split; [by vm_compute|].
  apply (success_returns_parsed_body world_success "test-token-123" "test"
           "4h" "0h" 100 "" None (payload_of default_body)
           (mkResponse (inr (mock_body (VDict [("status", VStr "success")]))))
           (mock_body (VDict [("status", VStr "success")]))
           (payload_of [("status", VStr "success")])).
  - split; [by vm_compute | discriminate].
  - by vm_compute.
  - reflexivity.
  - reflexivity.
  - by vm_compute.
  - by vm_compute.
Defined.

(** The credential is configured, the answer is 2xx and its body, the text
    [[1, 2]], parses as JSON; the value returned is the parsed body, a list,
    and not a mapping as the claim C1 promises. *)
Lemma success_body_need_not_be_a_mapping :
  let w := world_array in
  let req := post_request (payload_of default_body) in
  configured w "test-token-123"
  ∧ answer w req = Return (mkResponse (inr (list_byte_of_string "[1, 2]")))
  ∧ bytes_decode (list_byte_of_string "[1, 2]") = inr "[1, 2]"
  ∧ json_loads "[1, 2]" = inr (VList [VInt 1; VInt 2])
  ∧ run w (call "test" no_kwargs) = ([req], Return (VList [VInt 1; VInt 2]))
  ∧ is_dict (VList [VInt 1; VInt 2]) = false
  ∧ ¬ ∃ d, snd (run w (call "test" no_kwargs)) = Return (VDict d).
Proof.
  cbn zeta. split; [split; [by vm_compute | discriminate]|].
  split; [reflexivity|]. split; [by vm_compute|]. split; [by vm_compute|].
  assert (Hrun : run world_array (call "test" no_kwargs)
                 = ([post_request (payload_of default_body)],
                    Return (VList [VInt 1; VInt 2]))) by by vm_compute.
  split; [exact Hrun|]. split; [reflexivity|].
  rewrite Hrun. by intros [d [=]].
Qed.

(** The second [test_returns_dict_not_string]: HTTP 500 with the body
    [Non-JSON error response]; [details] is that text. *)
Example test_http_500_non_json_body :
  let w := world_http_500 in
  let raw := list_byte_of_string "Non-JSON error response" in
  let payload := payload_of default_body in
  let req := post_request payload in
  configured w "test-token-123"
  ∧ json_dumps (VDict default_body) = inr payload
  ∧ answer w req = Raise (HTTPError 500 "Internal Server Error" (Some (inr raw)))
  ∧ bytes_decode raw = inr "Non-JSON error response"
  ∧ run w (dataset_scalyr_query "test" "4h" "0h" 100 "" None)
    = ([req], Return (VDict
        [ ("error", VStr "HTTP 500: Internal Server Error");
          ("details", VStr "Non-JSON error response") ])).
Proof.
  cbn zeta.
  split; [split; [by vm_compute | discriminate]|].
  split; [by vm_compute|]. split; [reflexivity|]. split; [by vm_compute|].
  destruct (http_error_is_reported world_http_500 "test-token-123" "test"
              "4h" "0h" 100 "" None (payload_of default_body) 500
              "Internal Server Error"
              (list_byte_of_string "Non-JSON error response")
              "Non-JSON error response") as (d & Hrun & _ & Hraw).
  - split; [by vm_compute | discriminate].
  - by vm_compute.
  - reflexivity.
  - by vm_compute.
  - rewrite Hrun, Hraw; [reflexivity|]. intros v. by vm_compute.
Defined.

(** [test_url_error_handling]. *)
Lemma transport_error_is_reported_witness :
  let w := world_unreachable in
  let payload := payload_of default_body in
  let req := post_request payload in
  configured w "test-token-123"
  ∧ json_dumps (VDict default_body) = inr payload
  ∧ answer w req = Raise (URLError "Network unreachable")
  ∧ ∃ d,
      run w (dataset_scalyr_query "test" "4h" "0h" 100 "" None)
      = ([req], Return (VDict d))
      ∧ d = [("error", VStr "URL Error: Network unreachable")]
      ∧ dict_get d "details" = None.
Proof.
  cbn zeta.
  split; [split; [by vm_compute | discriminate]|].
  split; [by vm_compute|]. split; [reflexivity|].
  apply (transport_error_is_reported world_unreachable "test-token-123"
           "test" "4h" "0h" 100 "" None (payload_of default_body)).
  - split; [by vm_compute | discriminate].
  - by vm_compute.
  - reflexivity.
Defined.

(** The connection is reset while urllib waits for the answer of the
    server: a failure of the transport, which [urlopen] raises as a
    [ConnectionResetError] and not as a [URLError].  The call reports it
    as an unexpected error, not in the form [URL Error: <reason>] that the
    claim C6 promises. *)
Lemma connection_reset_is_not_a_url_error :
  let w := world_reset in
  let e := OSError "[Errno 104] Connection reset by peer" in
  configured w "test-token-123"
  ∧ (∀ req, answer w req = Raise e)
  ∧ transport_failure e = true
  ∧ snd (run w (call "test" no_kwargs))
    = Return (VDict
        [("error", VStr "Unexpected error: [Errno 104] Connection reset by peer")])
  ∧ ∀ reason,
      snd (run w (call "test" no_kwargs))
      ≠ Return (VDict [("error", VStr ("URL Error: " +:+ reason))]).
Proof.
  cbn zeta. split; [split; [by vm_compute | discriminate]|].
  split; [done|]. split; [done|].
  assert (Hrun : snd (run world_reset (call "test" no_kwargs))
                 = Return (VDict
                     [("error", VStr "Unexpected error: [Errno 104] Connection reset by peer")]))
    by by vm_compute.
  rewrite Hrun. split; [done|]. by intros reason.
Qed.

(** C5 on a failing input.  The credential is configured and the server
    answers with the non-2xx status 502 and an error body in ISO-8859-1.
    The body is not valid JSON, so the mapping
    [{error: "HTTP 502: Bad Gateway", details: <raw body>}] is due; the call
    returns no mapping at all, it raises. *)
Theorem latin1_error_body_is_not_reported :
  let w := world_http_502_latin1 in
  let raw := [x63; x61; x66; xe9] in
  configured w "test-token-123"
  ∧ (∀ req, answer w req = Raise (HTTPError 502 "Bad Gateway" (Some (inr raw))))
  ∧ (∀ text, bytes_decode raw ≠ inr text)
  ∧ (∀ d, snd (run w (call "test" no_kwargs))
          ≠ Return (VDict [ ("error", VStr "HTTP 502: Bad Gateway");
                            ("details", d) ]))
  ∧ ∃ e, snd (run w (call "test" no_kwargs)) = Raise e.
Proof.
  cbn zeta. split; [split; [by vm_compute | discriminate]|].
  split; [done|]. split; [by intros text; vm_compute|].
  assert (Hrun : snd (run world_http_502_latin1 (call "test" no_kwargs))
                 = Raise (Exception "'utf-8' codec can't decode bytes"))
    by by vm_compute.
  rewrite Hrun. split; [by intros d|by eexists].
Qed.

(** C7 on a failing input.  The credential is configured and the server
    answers HTTP 500 with a body that is not UTF-8 (the single byte [0xff]).
    Decoding the error body raises inside the [except HTTPError] clause, and
    that exception leaves the call: no error mapping is returned. *)
Theorem undecodable_error_body_escapes :
  let w := world_http_500_binary in
  configured w "test-token-123"
  ∧ (∀ req, answer w req
            = Raise (HTTPError 500 "Internal Server Error" (Some (inr [xff]))))
  ∧ (∃ msg, bytes_decode [xff] = inl msg)
  ∧ (∃ e, snd (run w (call "test" no_kwargs)) = Raise e)
  ∧ ¬ ∃ v, snd (run w (call "test" no_kwargs)) = Return v.
Proof.
  cbn zeta. split; [split; [by vm_compute | discriminate]|].
  split; [done|]. split; [by eexists; vm_compute|].
  assert (Hrun : snd (run world_http_500_binary (call "test" no_kwargs))
                 = Raise (Exception "'utf-8' codec can't decode bytes"))
    by by vm_compute.
  rewrite Hrun. split; [by eexists | by intros [v [=]]].
Qed.

(** *** The remaining tests *)

(** [test_http_error_handling]: HTTP 400 with a JSON body. *)
Example test_http_error_handling :
  snd (run world_http_400 (call "invalid" no_kwargs))
  = Return (VDict
      [ ("error", VStr "HTTP 400: Bad Request");
        ("details", VDict [ ("message", VStr "Invalid query");
                            ("code", VStr "BAD_REQUEST") ]) ]).
Proof. by vm_compute. Qed.

(** [test_unexpected_error_handling]. *)
Example test_unexpected_error_handling :
  snd (run world_unexpected (call "test" no_kwargs))
  = Return (VDict
      [("error", VStr "Unexpected error: Unexpected error occurred")]).
Proof. by vm_compute. Qed.

(** A 2xx answer whose body is not JSON is an unexpected error. *)
Example malformed_success_body :
  ∃ msg,
    snd (run world_malformed (call "test" no_kwargs))
    = Return (VDict [("error", VStr ("Unexpected error: " +:+ msg))]).
Proof. eexists. by vm_compute. Qed.

(** [test_query_with_custom_parameters]: the body read back from the bytes
    of the request. *)
Example test_query_with_custom_parameters :
  request_json <$> fst (run world_success (call "error" custom_kwargs))
  = [ inr (VDict
        [ ("token", VStr "test-token-123"); ("queryType", VStr "log");
          ("filter", VStr "error"); ("startTime", VStr "1h");
          ("endTime", VStr "0h"); ("maxCount", VInt 200);
          ("columns", VStr "timestamp,message,severity");
          ("continuationToken", VStr "token-123") ]) ].
Proof. by vm_compute. Qed.

(** [test_api_endpoint_and_headers]. *)
Example test_api_endpoint_and_headers :
  (λ req, (full_url req, headers req, method req))
    <$> fst (run world_success (call "test" no_kwargs))
  = [ ("https://app.scalyr.com/api/query",
       [("Content-Type", "application/json")], "POST") ].
Proof. by vm_compute. Qed.

(** *** The further properties on concrete calls *)

(** [test_unexpected_error_handling], through the general statement. *)
Lemma unexpected_failure_is_reported_witness :
  let w := world_unexpected in
  let payload := payload_of default_body in
  let req := post_request payload in
  configured w "test-token-123"
  ∧ json_dumps (VDict default_body) = inr payload
  ∧ answer w req = Raise (Exception "Unexpected error occurred")
  ∧ run w (dataset_scalyr_query "test" "4h" "0h" 100 "" None)
    = ([req], Return (VDict
        [("error", VStr "Unexpected error: Unexpected error occurred")])).
Proof.
  cbn zeta.
  split; [split; [by vm_compute | discriminate]|].
  split; [by vm_compute|]. split; [reflexivity|].
  apply (unexpected_failure_is_reported world_unexpected "test-token-123"
           "test" "4h" "0h" 100 "" None (payload_of default_body)
           "Unexpected error occurred").
  - split; [by vm_compute | discriminate].
  - by vm_compute.
  - left. reflexivity.
Defined.

(** A [max_count] of 4301 digits, through the general statement. *)
Lemma dumps_failure_is_reported_witness :
  let msg := "Exceeds the limit (4300 digits) for integer string conversion; "
             +:+ "use sys.set_int_max_str_digits() to increase the limit" in
  configured world_success "test-token-123"
  ∧ json_dumps (VDict (request_body "test-token-123" "test" "4h" "0h"
                         (10 ^ 4300) "" None)) = inl msg
  ∧ run world_success
      (dataset_scalyr_query "test" "4h" "0h" (10 ^ 4300) "" None)
    = ([], Return (VDict [("error", VStr ("Unexpected error: " +:+ msg))])).
Proof.
  cbn zeta. split; [split; [by vm_compute | discriminate]|].
  split; [by vm_compute|].
  apply (dumps_failure_is_reported world_success "test-token-123").
  - split; [by vm_compute | discriminate].
  - by vm_compute.
Defined.

(** A reset connection, through the general statement. *)
Lemma unwrapped_os_error_is_unexpected_witness :
  let w := world_reset in
  let payload := payload_of default_body in
  let req := post_request payload in
  configured w "test-token-123"
  ∧ json_dumps (VDict default_body) = inr payload
  ∧ raised_by_io w req (OSError "[Errno 104] Connection reset by peer")
  ∧ run w (dataset_scalyr_query "test" "4h" "0h" 100 "" None)
    = ([req], Return (VDict
        [("error", VStr "Unexpected error: [Errno 104] Connection reset by peer")])).
Proof.
  cbn zeta.
  split; [split; [by vm_compute | discriminate]|].
  split; [by vm_compute|]. split; [by left|].
  apply (unwrapped_os_error_is_unexpected world_reset "test-token-123"
           "test" "4h" "0h" 100 "" None (payload_of default_body)
           "[Errno 104] Connection reset by peer").
  - split; [by vm_compute | discriminate].
  - by vm_compute.
  - by left.
Defined.

(** A [KeyboardInterrupt] while [urlopen] waits. *)
Lemma base_exception_passes_through_witness :
  let w := world_interrupted in
  let payload := payload_of default_body in
  let req := post_request payload in
  configured w "test-token-123"
  ∧ json_dumps (VDict default_body) = inr payload
  ∧ raised_by_io w req (BaseException "")
  ∧ run w (dataset_scalyr_query "test" "4h" "0h" 100 "" None)
    = ([req], Raise (BaseException "")).
Proof.
  cbn zeta.
  split; [split; [by vm_compute | discriminate]|].
  split; [by vm_compute|]. split; [by left|].
  apply (base_exception_passes_through world_interrupted "test-token-123"
           "test" "4h" "0h" 100 "" None (payload_of default_body) "").
  - split; [by vm_compute | discriminate].
  - by vm_compute.
  - by left.
Defined.

(** The decoding failure that leaves the call on HTTP 500 with the body
    [0xff]. *)
Lemma escape_characterised_witness :
  let w := world_http_500_binary in
  let e := Exception "'utf-8' codec can't decode bytes" in
  is_Exception e = true
  ∧ (snd (run w (dataset_scalyr_query "test" "4h" "0h" 100 "" None)) = Raise e
     ↔ ∃ token payload code reason r,
         configured w token
         ∧ json_dumps (VDict (request_body token "test" "4h" "0h" 100 "" None))
           = inr payload
         ∧ raised_by_io w (post_request payload)
             (HTTPError code reason (Some r))
         ∧ (r = inl e
            ∨ ∃ raw msg, r = inr raw ∧ bytes_decode raw = inl msg
                         ∧ e = Exception msg)).
Proof.
  cbn zeta. split; [reflexivity|].
  apply (escape_characterised world_http_500_binary "test" "4h" "0h" 100 ""
           None (Exception "'utf-8' codec can't decode bytes")).
  reflexivity.
Defined.

(** HTTP 503 without a body stream: [details] is [str(e)]. *)
Lemma http_error_without_body_witness :
  let w := world_http_503_no_body in
  let payload := payload_of default_body in
  let req := post_request payload in
  configured w "test-token-123"
  ∧ json_dumps (VDict default_body) = inr payload
  ∧ answer w req = Raise (HTTPError 503 "Service Unavailable" None)
  ∧ run w (dataset_scalyr_query "test" "4h" "0h" 100 "" None)
    = ([req], Return (VDict
        [ ("error", VStr "HTTP 503: Service Unavailable");
          ("details", VStr "HTTP Error 503: Service Unavailable") ])).
Proof.
  cbn zeta.
  split; [split; [by vm_compute | discriminate]|].
  split; [by vm_compute|]. split; [reflexivity|].
  destruct (http_error_without_body world_http_503_no_body "test-token-123"
              "test" "4h" "0h" 100 "" None (payload_of default_body) 503
              "Service Unavailable")
    as (d & Hrun & _ & Hraw).
  - split; [by vm_compute | discriminate].
  - by vm_compute.
  - reflexivity.
  - rewrite Hrun, Hraw; [reflexivity|]. intros v. by vm_compute.
Defined.

(** [test_http_error_handling], through the general statement. *)
Lemma http_error_takes_precedence_witness :
  let w := world_http_400 in
  let payload := payload_of (request_body "test-token-123" "invalid" "4h"
                               "0h" 100 "" None) in
  let v := VDict [ ("error", VStr "HTTP 400: Bad Request");
                   ("details", VDict [ ("message", VStr "Invalid query");
                                       ("code", VStr "BAD_REQUEST") ]) ] in
  configured w "test-token-123"
  ∧ json_dumps (VDict (request_body "test-token-123" "invalid" "4h" "0h" 100
                         "" None)) = inr payload
  ∧ snd (run w (dataset_scalyr_query "invalid" "4h" "0h" 100 "" None))
    = Return v
  ∧ (∃ d, v = VDict [ ("error", VStr ("HTTP " +:+ str_of_int 400 +:+ ": " +:+ "Bad Request"));
                      ("details", d) ])
  ∧ ∀ text, v ≠ VDict [("error", VStr ("URL Error: " +:+ text))].
Proof.
  cbn zeta.
  split; [split; [by vm_compute | discriminate]|].
  split; [by vm_compute|]. split; [by vm_compute|].
  apply (http_error_takes_precedence world_http_400 "test-token-123" "invalid"
           "4h" "0h" 100 "" None
           (payload_of (request_body "test-token-123" "invalid" "4h" "0h" 100
                          "" None))
           400 "Bad Request"
           (Some (inr (mock_body
              (VDict [("message", VStr "Invalid query");
                      ("code", VStr "BAD_REQUEST")]))))).
  - split; [by vm_compute | discriminate].
  - by vm_compute.
  - reflexivity.
  - by vm_compute.
Defined.

(** The value returned when the network is unreachable has one of the five
    shapes. *)
Lemma return_shapes_witness :
  let w := world_unreachable in
  let v := VDict [("error", VStr "URL Error: Network unreachable")] in
  snd (run w (dataset_scalyr_query "test" "4h" "0h" 100 "" None)) = Return v
  ∧ (v = VDict [("error", VStr "SCALYR_API_TOKEN environment variable not set")]
     ∨ (∃ token payload response raw text,
          configured w token
          ∧ json_dumps (VDict (request_body token "test" "4h" "0h" 100 "" None))
            = inr payload
          ∧ answer w (post_request payload) = Return response
          ∧ response_read response = inr raw
          ∧ bytes_decode raw = inr text
          ∧ json_loads text = inr v)
     ∨ (∃ code reason d,
          v = VDict [ ("error", VStr ("HTTP " +:+ str_of_int code +:+ ": " +:+ reason));
                      ("details", d) ])
     ∨ (∃ reason, v = VDict [("error", VStr ("URL Error: " +:+ reason))])
     ∨ (∃ msg, v = VDict [("error", VStr ("Unexpected error: " +:+ msg))])).
Proof.
  cbn zeta. split; [by vm_compute|].
  apply (return_shapes world_unreachable "test" "4h" "0h" 100 "" None).
  by vm_compute.
Defined.

(** Other variables in the environment change nothing. *)
Lemma only_credential_is_read_witness :
  environ world_success !! SCALYR_API_TOKEN
  = environ world_busy_environ !! SCALYR_API_TOKEN
  ∧ (∀ req, answer world_success req = answer world_busy_environ req)
  ∧ run world_success (dataset_scalyr_query "test" "4h" "0h" 100 "" None)
    = run world_busy_environ (dataset_scalyr_query "test" "4h" "0h" 100 "" None).
Proof.
  split; [by vm_compute|]. split; [reflexivity|].
  apply (only_credential_is_read world_success world_busy_environ).
  - by vm_compute.
  - reflexivity.
Defined.

(** [test_query_with_custom_parameters], through the general statement. *)
Lemma parameters_are_forwarded_witness :
  let body := request_body "test-token-123" "error" "1h" "0h" 200
                "timestamp,message,severity" (Some "token-123") in
  let payload := payload_of body in
  let log := fst (run world_success
                    (dataset_scalyr_query "error" "1h" "0h" 200
                       "timestamp,message,severity" (Some "token-123"))) in
  configured world_success "test-token-123"
  ∧ json_dumps (VDict body) = inr payload
  ∧ log = [post_request payload]
  ∧ dict_get body "token" = Some (VStr "test-token-123")
  ∧ dict_get body "queryType" = Some (VStr "log")
  ∧ dict_get body "filter" = Some (VStr "error")
  ∧ dict_get body "startTime" = Some (VStr "1h")
  ∧ dict_get body "endTime" = Some (VStr "0h")
  ∧ dict_get body "columns" = Some (VStr "timestamp,message,severity")
  ∧ fst <$> body = (body_keys ++ ["continuationToken"])%list
  ∧ NoDup (fst <$> body)
  ∧ (bytes_decode (str_encode payload) = inr payload →
     json_loads payload = inr (VDict body) →
     Forall (λ req, request_json req = inr (VDict body)) log).
Proof.
  cbn zeta. split; [split; [by vm_compute | discriminate]|].
  split; [by vm_compute|].
  apply (parameters_are_forwarded world_success "test-token-123" "error" "1h"
           "0h" 200 "timestamp,message,severity" (Some "token-123")).
  - split; [by vm_compute | discriminate].
  - by vm_compute.
Defined.

(** Two HTTP 503 errors, one without and one with a body: the results differ
    in [details] and agree on [error]. *)
Lemma http_error_text_determines_code_witness :
  let query := dataset_scalyr_query "test" "4h" "0h" 100 "" None in
  let payload := payload_of default_body in
  let v := VDict [ ("error", VStr "HTTP 503: Service Unavailable");
                   ("details", VStr "HTTP Error 503: Service Unavailable") ] in
  let v' := VDict [ ("error", VStr "HTTP 503: Service Unavailable");
                    ("details", VStr "busy") ] in
  configured world_http_503_no_body "test-token-123"
  ∧ json_dumps (VDict default_body) = inr payload
  ∧ snd (run world_http_503_no_body query) = Return v
  ∧ configured world_http_503_busy "test-token-123"
  ∧ snd (run world_http_503_busy query) = Return v'
  ∧ value_get v "error" = value_get v' "error"
  ∧ 503 = 503 ∧ "Service Unavailable" = "Service Unavailable".
Proof.
  cbn zeta.
  split; [split; [by vm_compute | discriminate]|].
  split; [by vm_compute|]. split; [by vm_compute|].
  split; [split; [by vm_compute | discriminate]|].
  split; [by vm_compute|]. split; [reflexivity|].
  apply (http_error_text_determines_code
           world_http_503_no_body world_http_503_busy
           "test-token-123" "test-token-123" "test" "4h" "0h" 100 "" None
           (payload_of default_body) (payload_of default_body)
           503 503 "Service Unavailable" "Service Unavailable"
           None (Some (inr (list_byte_of_string "busy")))
           (VDict [ ("error", VStr "HTTP 503: Service Unavailable");
                    ("details", VStr "HTTP Error 503: Service Unavailable") ])
           (VDict [ ("error", VStr "HTTP 503: Service Unavailable");
                    ("details", VStr "busy") ])).
  - split; [by vm_compute | discriminate].
  - by vm_compute.
  - reflexivity.
  - by vm_compute.
  - split; [by vm_compute | discriminate].
  - by vm_compute.
  - reflexivity.
  - by vm_compute.
  - reflexivity.
Defined.
